(** * SnapMind: hybrid retrieval (SQL migration) and the intake service

    Two parts of the repository are embedded here.

    - [HybridSearch]: the SQL functions [hybrid_search_documents] and
      [keyword_search_documents] of the Phase 2 migration, as list programs
      over the rows of the [documents] table.
    - [Intake]: the Express handler of [POST /receive_data] in [server.js]
      with its helper [deriveTypeFromUrl], as a state-passing program over
      the Firestore collection ['memories'].

    Further down come the other functions of these two files and two users
    of the service: [Firecrawl] and [Analysis] for the helpers
    [scrapeWithFirecrawl] and [analyzeContent], [Bm25] for the SQL function
    [bm25_score], [QuickAdd] for the form that posts to [/receive_data], and
    [Dashboard] for the search bar that reads the collection.

    PostgreSQL [float] and [real] values are taken as exact rationals ([Q]);
    rounding, infinities, NaN and the difference between the two column
    types are outside this development.  The request body is the object
    [express.json()] parsed. *)

From Stdlib Require Import ZArith QArith Lqa Lia List Bool String Ascii PrimFloat.
From Stdlib Require Import Permutation Sorted SetoidList SetoidPermutation.
From stdpp Require Import gmap strings sorting pretty.

Import ListNotations.
Local Open Scope Z_scope.

(** ** Fallible computations *)

Inductive result (E A : Type) : Type :=
| Ok (a : A)
| Err (e : E).
Arguments Ok {E A} a.
Arguments Err {E A} e.

#[export] Instance result_ret {E : Type} : MRet (result E) := fun A a => Ok a.

#[export] Instance result_bind {E : Type} : MBind (result E) :=
  fun A B k c =>
    match c with
    | Ok a => k a
    | Err e => Err e
    end.

(** ** Comparisons on scores *)

Definition Qlt_bool (x y : Q) : bool := negb (Qle_bool y x).

Lemma Qlt_bool_iff (x y : Q) : Qlt_bool x y = true <-> (x < y)%Q.
Proof.
  unfold Qlt_bool. rewrite negb_true_iff, <- not_true_iff_false, Qle_bool_iff.
  split; [apply Qnot_le_lt | apply Qlt_not_le].
Qed.

(** ** Strings

    Strings are sequences of ASCII characters here; [toLowerCase] maps the
    letters A to Z and leaves every other character as it is. *)

Definition lower_ascii (c : ascii) : ascii :=
  let n := nat_of_ascii c in
  if (65 <=? n)%nat && (n <=? 90)%nat then ascii_of_nat (n + 32) else c.

Fixpoint toLowerCase (s : string) : string :=
  match s with
  | EmptyString => EmptyString
  | String c s' => String (lower_ascii c) (toLowerCase s')
  end.

(** [s.includes(sub)] *)
Fixpoint includes (s sub : string) : bool :=
  String.prefix sub s
  || match s with
     | EmptyString => false
     | String _ s' => includes s' sub
     end.

(** [s.endsWith(suffix)] *)
Definition endsWith (s suffix : string) : bool :=
  (String.length suffix <=? String.length s)%nat
  && String.eqb
       (String.substring (String.length s - String.length suffix)
          (String.length suffix) s)
       suffix.

(** The words of a text: its maximal runs of characters other than blanks. *)
Fixpoint words_from (word : string) (s : string) : list string :=
  match s with
  | EmptyString => if String.eqb word EmptyString then [] else [word]
  | String c s' =>
      if Ascii.eqb c " "%char
      then (if String.eqb word EmptyString then [] else [word]) ++ words_from EmptyString s'
      else words_from (word ++ String c EmptyString)%string s'
  end.

Definition words (s : string) : list string := words_from EmptyString s.

Module HybridSearch.

(** ORDER BY direction. *)
Inductive direction : Type := ASC | DESC.

Definition in_order (dir : direction) (x y : Q) : Prop :=
  match dir with
  | ASC => (x <= y)%Q
  | DESC => (y <= x)%Q
  end.

Definition ordered_by {A : Type} (dir : direction) (key : A -> Q) (l : list A) : Prop :=
  StronglySorted (fun a b => in_order dir (key a) (key b)) l.

(** The storage engine the migration runs on.  The SQL text only fixes what
    a query asks for: the operators of pgvector and of full-text search come
    with the database.  [ts_match_empty] is PostgreSQL's rule for [@@] that
    a query without lexemes (nothing but stop words or blanks went in: the
    server says so in a notice and ignores the query) matches no row. *)
Class Operators : Type := {
  vector : Type;
  tsvector : Type;
  tsquery : Type;
  (** [a <=> b] *)
  cosine_distance : vector -> vector -> Q;
  (** [to_tsvector('english', text)] *)
  to_tsvector : string -> tsvector;
  (** [plainto_tsquery('english', text)] *)
  plainto_tsquery : string -> tsquery;
  (** [numnode(query)]: the number of lexemes and operators of a query *)
  numnode : tsquery -> nat;
  (** [vec @@ query] *)
  ts_match : tsvector -> tsquery -> bool;
  ts_rank : tsvector -> tsquery -> Q;
  ts_match_empty : forall v q, numnode q = 0%nat -> ts_match v q = false
}.

(** How the executor carries out an ORDER BY: any function that returns its
    input rearranged in the requested order.  Rows that compare equal may
    come out in any arrangement, and two executors may differ there. *)
Class Executor : Type := {
  order_by : forall A : Type, direction -> (A -> Q) -> list A -> list A;
  order_by_Permutation : forall A dir key l, Permutation l (order_by A dir key l);
  order_by_ordered : forall A dir key l, ordered_by dir key (order_by A dir key l)
}.
Arguments order_by {_ A} dir key l.

(** A row of the CTEs [vector_results] and [keyword_results]. *)
Record candidate : Type := {
  cand_id : Z;
  cand_content : string;
  cand_source_url : option string;
  cand_metadata : string;
  cand_similarity : Q;
  cand_bm25 : Q
}.



Inductive pg_error : Type :=
| integer_out_of_range
| limit_must_not_be_negative.

Definition int4_max : Z := 2147483647.

(** [a * b] on [int]: PostgreSQL raises an error where C would wrap. *)
Definition int4_mul (a b : Z) : result pg_error Z :=
  if (- int4_max - 1 <=? a * b) && (a * b <=? int4_max) then Ok (a * b)
  else Err integer_out_of_range.

(** [LIMIT n] *)
Definition limit {A : Type} (n : Z) (l : list A) : result pg_error (list A) :=
  if n <? 0 then Err limit_must_not_be_negative
  else Ok (firstn (Z.to_nat n) l).

(** The counts [hybrid_search_documents] accepts: [match_count * 2] must
    fit an [int], and a LIMIT must not be negative. *)
Definition in_range (match_count : Z) : Prop := 0 <= match_count <= 1073741823.


(** The queries.  [filter_source_url] may be NULL ([None]); the other
    arguments are taken to be given or defaulted, not NULL. *)
Section Queries.
Context `{Ops : Operators} `{Exe : Executor}.

(** A row of the [documents] table.  [source_url] is nullable. *)
Record document : Type := {
  doc_id : Z;
  doc_content : string;
  doc_source_url : option string;
  doc_metadata : string;
  doc_embedding : vector
}.

(** [filter_source_url IS NULL OR d.source_url = filter_source_url]; a NULL
    [source_url] compared with a filter is not true. *)
Definition source_url_filter (filter_source_url : option string) (d : document) : bool :=
  match filter_source_url with
  | None => true
  | Some u =>
      match doc_source_url d with
      | Some u' => String.eqb u' u
      | None => false
      end
  end.

(** The lexical match both functions ask for:
    [to_tsvector('english', d.content) @@ plainto_tsquery('english', query_text)]
    and its score [ts_rank(to_tsvector(..), plainto_tsquery(..))]. *)
Definition matches_text (query_text : string) (d : document) : bool :=
  ts_match (to_tsvector (doc_content d)) (plainto_tsquery query_text).

Definition text_rank (query_text : string) (d : document) : Q :=
  ts_rank (to_tsvector (doc_content d)) (plainto_tsquery query_text).

(** WHERE clause and SELECT list of the CTE [vector_results]. *)
Definition vector_where (match_threshold : Q) (filter_source_url : option string)
    (query_embedding : vector) (d : document) : bool :=
  source_url_filter filter_source_url d
  && Qlt_bool match_threshold (1 - cosine_distance (doc_embedding d) query_embedding).

Definition vector_select (query_embedding : vector) (d : document) : candidate :=
  {| cand_id := doc_id d;
     cand_content := doc_content d;
     cand_source_url := doc_source_url d;
     cand_metadata := doc_metadata d;
     cand_similarity := 1 - cosine_distance (doc_embedding d) query_embedding;
     cand_bm25 := 0 |}.

Definition vector_results (documents : list document) (query_embedding : vector)
    (match_threshold : Q) (match_count : Z) (filter_source_url : option string)
  : result pg_error (list candidate) :=
  n ← int4_mul match_count 2;
  limit n
    (map (vector_select query_embedding)
       (order_by ASC (fun d => cosine_distance (doc_embedding d) query_embedding)
          (List.filter (vector_where match_threshold filter_source_url query_embedding)
             documents))).

(** WHERE clause of the CTE [keyword_results] and of
    [keyword_search_documents], and the SELECT list of the CTE. *)
Definition keyword_where (filter_source_url : option string) (query_text : string)
    (d : document) : bool :=
  source_url_filter filter_source_url d && matches_text query_text d.

Definition keyword_select (query_text : string) (d : document) : candidate :=
  {| cand_id := doc_id d;
     cand_content := doc_content d;
     cand_source_url := doc_source_url d;
     cand_metadata := doc_metadata d;
     cand_similarity := 0;
     cand_bm25 := text_rank query_text d |}.

Definition keyword_results (documents : list document) (query_text : string)
    (match_count : Z) (filter_source_url : option string)
  : result pg_error (list candidate) :=
  n ← int4_mul match_count 2;
  limit n
    (order_by DESC cand_bm25
       (map (keyword_select query_text)
          (List.filter (keyword_where filter_source_url query_text) documents))).












(** The DEFAULT clauses of the signature of [hybrid_search_documents];
    [filter_source_url] has DEFAULT NULL. *)
Definition default_match_threshold : Q := 3 # 10.
Definition default_match_count : Z := 10.

(** The arguments a caller may leave out ([None]: left out; for
    [filter_source_url] also: given as NULL). *)
Record optional_arguments : Type := {
  match_threshold : option Q;
  match_count : option Z;
  filter_source_url : option string;
  vector_weight : option Q;
  keyword_weight : option Q
}.

Definition or_default {A : Type} (given : option A) (default : A) : A :=
  match given with
  | Some a => a
  | None => default
  end.


End Queries.

(** ** Two executors

    [merge_executor] sorts with stdpp's merge sort; [reversing_executor]
    reads its input back to front first.  Both meet the contract of
    ORDER BY, and they arrange rows that compare equal differently. *)

Definition in_order_dec (dir : direction) (x y : Q) : Decision (in_order dir x y).
Proof.
  destruct dir; simpl.
  - destruct (Qle_bool x y) eqn:E; [left | right].
    + now apply Qle_bool_iff.
    + intros H. apply Qle_bool_iff in H. congruence.
  - destruct (Qle_bool y x) eqn:E; [left | right].
    + now apply Qle_bool_iff.
    + intros H. apply Qle_bool_iff in H. congruence.
Defined.

Definition by_key {A : Type} (dir : direction) (key : A -> Q) : relation A :=
  fun a b => in_order dir (key a) (key b).

#[export] Instance by_key_dec {A : Type} (dir : direction) (key : A -> Q) :
  RelDecision (by_key dir key).
Proof. intros a b. apply in_order_dec. Defined.

#[export] Instance by_key_Transitive {A : Type} (dir : direction) (key : A -> Q) :
  Transitive (by_key dir key).
Proof. intros a b c; unfold by_key; destruct dir; simpl; lra. Qed.

#[export] Instance by_key_Total {A : Type} (dir : direction) (key : A -> Q) :
  Total (by_key dir key).
Proof. intros a b; unfold by_key; destruct dir; simpl; lra. Qed.

Definition mergesort {A : Type} (dir : direction) (key : A -> Q) (l : list A) : list A :=
  merge_sort (by_key dir key) l.

Lemma mergesort_Permutation {A : Type} (dir : direction) (key : A -> Q) (l : list A) :
  Permutation l (mergesort dir key l).
Proof. symmetry. apply merge_sort_Permutation. Qed.

Lemma mergesort_ordered {A : Type} (dir : direction) (key : A -> Q) (l : list A) :
  ordered_by dir key (mergesort dir key l).
Proof. apply (StronglySorted_merge_sort (by_key dir key)). Qed.

Definition merge_executor : Executor :=
  {| order_by := @mergesort;
     order_by_Permutation := @mergesort_Permutation;
     order_by_ordered := @mergesort_ordered |}.





(** ** A small set of operators, for examples

    Embeddings are unit vectors with rational coordinates, on which
    pgvector's cosine distance is one minus the inner product.  The lexemes
    of a text are its lower-cased words without a few stop words; a query
    asks for all of its lexemes; the rank of a document is a tenth of the
    number of its words that the query asks for (PostgreSQL's ranks are of
    that magnitude, its formula is not reproduced). *)

Fixpoint inner_product (a b : list Q) : Q :=
  match a, b with
  | x :: a', y :: b' => (x * y + inner_product a' b')%Q
  | _, _ => 0%Q
  end.

Definition stop_words : list string := ["a"; "an"; "and"; "is"; "of"; "the"; "to"]%string.

Definition lexemes (text : string) : list string :=
  List.filter (fun w => negb (existsb (String.eqb w) stop_words)) (words (toLowerCase text)).

Definition asks_for (query : list string) (w : string) : bool :=
  existsb (String.eqb w) query.

Definition word_match (v query : list string) : bool :=
  negb (Nat.eqb (List.length query) 0)
  && forallb (fun w => existsb (String.eqb w) v) query.

Lemma word_match_empty (v q : list string) :
  (match q with [] => 0 | _ => 2 * List.length q - 1 end)%nat = 0%nat ->
  word_match v q = false.
Proof. destruct q as [|w q]; [reflexivity | simpl; lia]. Qed.

Definition word_operators : Operators :=
  {| vector := list Q;
     tsvector := list string;
     tsquery := list string;
     cosine_distance := fun a b => (1 - inner_product a b)%Q;
     to_tsvector := lexemes;
     plainto_tsquery := lexemes;
     numnode := fun q => match q with [] => 0 | _ => 2 * List.length q - 1 end%nat;
     ts_match := word_match;
     ts_rank := fun v q =>
       (inject_Z (Z.of_nat (List.length (List.filter (asks_for q) v))) / 10)%Q;
     ts_match_empty := word_match_empty |}.

End HybridSearch.

Module Intake.

(** ** JavaScript values

    What [JSON.parse] can produce, and [undefined] for a key that is not
    there. *)
#[local] Unset Elimination Schemes.
Inductive jsval : Type :=
| JUndefined
| JNull
| JBool (b : bool)
| JNum (n : float)
| JStr (s : string)
| JArr (elements : list jsval)
| JObj (properties : list (string * jsval)).
#[local] Set Elimination Schemes.

(** An object by its own properties. *)
Abbreviation object := (gmap string jsval).

(** ToBoolean: what [!v], [v || w] and [if (v)] look at. *)
Definition truthy (v : jsval) : bool :=
  match v with
  | JUndefined | JNull => false
  | JBool b => b
  | JNum n => negb (PrimFloat.eqb n 0%float || PrimFloat.is_nan n)
  | JStr s => negb (String.eqb s "")
  | JArr _ | JObj _ => true
  end.

(** [a || b] *)
Definition js_or (a b : jsval) : jsval := if truthy a then a else b.

Inductive error : Type :=
| TypeError (message : string)
| Error (message : string).

Definition message (e : error) : string :=
  match e with
  | TypeError m | Error m => m
  end.

(** [o.key] on an object given by its properties. *)
Definition property (o : object) (key : string) : jsval :=
  match o !! key with
  | Some v => v
  | None => JUndefined
  end.

(** [v.includes(x)] for a string [x]: a substring test on a string, a
    membership test on an array, and no such method on anything else. *)
Definition includes_method (v : jsval) (x : string) : result error bool :=
  match v with
  | JStr s => Ok (includes s x)
  | JArr elements =>
      Ok (existsb (fun e => match e with JStr s => String.eqb s x | _ => false end)
            elements)
  | _ => Err (TypeError "url.includes is not a function")
  end.

(** [url && (url.includes('localhost') || url.includes('127.0.0.1'))], as
    the boolean that [!isLocal] and [if (.. && isLocal)] see. *)
Definition isLocal (url : jsval) : result error bool :=
  if truthy url then
    localhost ← includes_method url "localhost";
    if localhost : bool then Ok true else includes_method url "127.0.0.1"
  else Ok false.

(** Helper to derive type (matches frontend logic) *)
Definition deriveTypeFromUrl (url : jsval) : result error string :=
  if negb (truthy url) then Ok "text"
  else
    match url with
    | JStr s =>
        let u := toLowerCase s in
        if includes u "youtube.com" || includes u "youtu.be" then Ok "youtube"
        else if includes u "linkedin.com" then Ok "linkedin"
        else if includes u "x.com" || includes u "twitter.com" then Ok "twitter"
        else if includes u "reddit.com" then Ok "reddit"
        else if includes u "quora.com" then Ok "quora"
        else if includes u "instagram.com" then Ok "instagram"
        else if includes u "github.com" then Ok "github"
        else if endsWith u ".pdf" then Ok "pdf"
        else Ok "article"
    | _ => Err (TypeError "url.toLowerCase is not a function")
    end.

(** ** The world of the handler *)

(** [const { url, text, title } = req.body] *)
Record body : Type := {
  url : jsval;
  text : jsval;
  title : jsval
}.

(** What [scrapeWithFirecrawl] returns: [response.data.data]. *)
Record scraped : Type := {
  markdown : jsval;
  metadata : jsval
}.

(** The calls that leave the process. *)
Inductive event : Type :=
| Scrape (url : jsval)
| Analyze (content : jsval)
| Add (id : string) (memory : object).

(** The Firestore collection ['memories'] by document id ([None]: the
    service account key was not found and [db] was never set), and the
    calls made so far. *)
Record world : Type := {
  db : option (gmap string object);
  log : list event
}.

(** The collaborators.  [scrapeWithFirecrawl] and [analyzeContent] reach
    Firecrawl and Mistral over the network: what they return or throw is
    theirs to decide.  [analyzeContent] gives the own properties of the
    value it parsed.  [auto_id] is the identifier Firestore generates for
    [add], or the error of a write that did not go through. *)
Record services : Type := {
  scrapeWithFirecrawl : jsval -> result error scraped;
  analyzeContent : jsval -> result error object;
  toISOString_now : string;
  auto_id : gmap string object -> result error string
}.

Definition action (A : Type) : Type := world -> result error A * world.

#[export] Instance action_ret : MRet action := fun A a w => (Ok a, w).

#[export] Instance action_bind : MBind action :=
  fun A B k c w =>
    match c w with
    | (Ok a, w') => k a w'
    | (Err e, w') => (Err e, w')
    end.

Definition throw {A : Type} (e : error) : action A := fun w => (Err e, w).

Definition lift {A : Type} (r : result error A) : action A := fun w => (r, w).

(** [try { c } catch (e) { handler e }] *)
Definition try_catch {A : Type} (c : action A) (handler : error -> action A) : action A :=
  fun w =>
    match c w with
    | (Ok a, w') => (Ok a, w')
    | (Err e, w') => handler e w'
    end.

Definition read_db : action (option (gmap string object)) :=
  fun w => (Ok (db w), w).

Definition record_event (e : event) : action unit :=
  fun w => (Ok tt, {| db := db w; log := log w ++ [e] |}).

Section Handler.
(** The conversion a template literal applies to [${v}]. *)
Variable ToString : jsval -> string.
Variable S : services.

Definition call_scrapeWithFirecrawl (url : jsval) : action scraped :=
  _ ← record_event (Scrape url);
  lift (scrapeWithFirecrawl S url).

Definition call_analyzeContent (content : jsval) : action object :=
  _ ← record_event (Analyze content);
  lift (analyzeContent S content).

(** [db.collection('memories').add(memory)]: a new document under a
    generated id; Firestore refuses to create over an existing one. *)
Definition collection_add (memories : gmap string object) (memory : object)
  : action string :=
  id ← lift (auto_id S memories);
  match memories !! id with
  | Some _ => throw (Error "ALREADY_EXISTS")
  | None =>
      fun w => (Ok id, {| db := Some (<[id := memory]> memories);
                          log := log w ++ [Add id memory] |})
  end.

Definition newline : string := String (ascii_of_nat 10) EmptyString.

Inductive reply : Type :=
| error_reply (error : string)
| saved_reply (id : string) (memory : object)
| unsaved_reply (memory : object) (warning : string).

Record response : Type := {
  status : nat;
  json : reply
}.

(** Steps 3 to 6 of the handler: scrape or take the text, analyze, and
    construct the final memory. *)
Definition construct_finalMemory (req : body) : action object :=
  let finalUrl := js_or (url req) JNull in
  isLocal ← lift (isLocal (url req));
  contentToAnalyze ←
    (if truthy (url req) && negb isLocal then
       try_catch
         (scrapeResult ← call_scrapeWithFirecrawl (url req);
          let contentToAnalyze := js_or (markdown scrapeResult) (JStr "") in
          if truthy (js_or (title req) (text req)) then
            mret (JStr ("User Note/Title: " +:+ ToString (title req) +:+ " "
                        +:+ ToString (text req) +:+ newline +:+ newline
                        +:+ "Scraped Content:" +:+ newline
                        +:+ ToString contentToAnalyze))
          else mret contentToAnalyze)
         (fun scrapeErr =>
            if truthy (text req) then
              mret (JStr ("(Scrape Failed for " +:+ ToString (url req)
                          +:+ ") User Note: " +:+ ToString (title req)
                          +:+ newline +:+ newline +:+ ToString (text req)))
            else throw scrapeErr)
     else
       let contentToAnalyze :=
         "Title: " +:+ ToString (js_or (title req) (JStr "No Title")) +:+ newline
         +:+ "Content: " +:+ ToString (js_or (text req) (JStr "")) in
       mret (JStr (if negb (truthy (text req)) && isLocal
                   then contentToAnalyze +:+ newline
                        +:+ "(No text content provided for local URL)"
                   else contentToAnalyze)));
  analysisData ← call_analyzeContent (js_or contentToAnalyze (JStr "No content found"));
  type ← lift (deriveTypeFromUrl finalUrl);
  mret
    (<["favorite" := JBool false]>
       (<["type" := js_or (JStr type) (JStr "note")]>
          (<["created_at" := JStr (toISOString_now S)]>
             (<["full_content" := JStr ""]>
                (<["firecrawl_metadata" := JStr ""]>
                   (<["original_url" := finalUrl]>
                      (<["url" := finalUrl]>
                         (<["title" := js_or (property analysisData "title")
                                         (js_or (title req) (JStr "Untitled Memory"))]>
                            analysisData)))))))).

(** Step 7: save to Firebase. *)
Definition save (finalMemory : object) : action response :=
  db ← read_db;
  match db with
  | Some memories =>
      id ← collection_add memories finalMemory;
      mret {| status := 200; json := saved_reply id finalMemory |}
  | None =>
      mret {| status := 200;
              json := unsaved_reply finalMemory "Not saved to DB (Config missing)" |}
  end.

(** The body of the [try] block of the handler. *)
Definition process (req : body) : action response :=
  finalMemory ← construct_finalMemory req;
  save finalMemory.

(** [app.post('/receive_data', async (req, res) => ...)] *)
Definition receive_data (req : body) (w : world) : response * world :=
  if negb (truthy (url req)) && negb (truthy (text req)) then
    ({| status := 400; json := error_reply "Either URL or text content is required" |}, w)
  else
    match process req w with
    | (Ok res, w') => (res, w')
    | (Err error, w') => ({| status := 500; json := error_reply (message error) |}, w')
    end.

End Handler.

(** ** Vocabulary of the properties below *)

(** The types [deriveTypeFromUrl] names, and the order in which it tries
    the platforms, written as the table the function walks through. *)
Definition memory_types : list string :=
  ["text"; "youtube"; "linkedin"; "twitter"; "reddit"; "quora"; "instagram";
   "github"; "pdf"; "article"]%string.

Definition platforms : list (list string * string) :=
  [ (["youtube.com"; "youtu.be"], "youtube");
    (["linkedin.com"], "linkedin");
    (["x.com"; "twitter.com"], "twitter");
    (["reddit.com"], "reddit");
    (["quora.com"], "quora");
    (["instagram.com"], "instagram");
    (["github.com"], "github") ]%string.

Definition type_by_precedence (u : string) : string :=
  match find (fun p => existsb (includes u) (fst p)) platforms with
  | Some p => snd p
  | None => if endsWith u ".pdf" then "pdf" else "article"
  end.

(** Whether a stored memory is one for the address [u], and how many of a
    collection are. *)
Definition has_url (u : string) (memory : object) : bool :=
  match memory !! "url" with
  | Some (JStr s) => String.eqb s u
  | _ => false
  end.

Definition entries_for (u : string) (memories : gmap string object) : nat :=
  size (filter (fun entry : string * object => Is_true (has_url u entry.2)) memories).

End Intake.

(** * Properties of the hybrid search *)

Module SearchFacts.
Import HybridSearch.

Section lists.
Context {A : Type}.

Lemma firstn_incl (n : nat) (l : list A) : incl (firstn n l) l.
Proof.
  revert l; induction n as [|n IH]; intros [|x l]; simpl; try easy.
  intros y [->|H]; [now left | right; now apply IH].
Qed.


Lemma length_firstn_le (n : nat) (l : list A) : (List.length (firstn n l) <= n)%nat.
Proof. rewrite length_firstn. lia. Qed.

Lemma ordered_by_firstn (dir : direction) (key : A -> Q) (n : nat) (l : list A) :
  ordered_by dir key l -> ordered_by dir key (firstn n l).
Proof.
  unfold ordered_by. intros H; revert n.
  induction H as [|x l Hl IH Hx]; intros [|n]; simpl; try constructor.
  - apply IH.
  - rewrite List.Forall_forall in *. intros y Hy. apply Hx. now apply (firstn_incl n l).
Qed.







End lists.

Lemma int4_mul_double (match_count : Z) :
  in_range match_count -> int4_mul match_count 2 = Ok (match_count * 2).
Proof.
  intros [H0 H1].
  assert (Hlo : (- int4_max - 1 <=? match_count * 2) = true)
    by (apply Z.leb_le; unfold int4_max; lia).
  assert (Hhi : (match_count * 2 <=? int4_max) = true)
    by (apply Z.leb_le; unfold int4_max; lia).
  unfold int4_mul. now rewrite Hlo, Hhi.
Qed.

Lemma limit_Ok {A : Type} (n : Z) (l : list A) :
  0 <= n -> limit n l = Ok (firstn (Z.to_nat n) l).
Proof. intros H. unfold limit. destruct (Z.ltb_spec n 0); [lia | reflexivity]. Qed.

Section queries.
Context `{Ops : Operators} `{Exe : Executor}.

Lemma order_by_In {A : Type} (dir : direction) (key : A -> Q) (l : list A) (x : A) :
  In x (order_by dir key l) <-> In x l.
Proof.
  split; apply Permutation_in;
    [symmetry |]; apply order_by_Permutation.
Qed.

Lemma vector_results_Ok docs qe mt mc f :
  in_range mc ->
  vector_results docs qe mt mc f
  = Ok (firstn (Z.to_nat (mc * 2))
          (map (vector_select qe)
             (order_by ASC (fun d => cosine_distance (doc_embedding d) qe)
                (List.filter (vector_where mt f qe) docs)))).
Proof.
  intros H. unfold vector_results. rewrite (int4_mul_double mc H). simpl.
  rewrite limit_Ok by (unfold in_range in H; lia). reflexivity.
Qed.

Lemma keyword_results_Ok docs qt mc f :
  in_range mc ->
  keyword_results docs qt mc f
  = Ok (firstn (Z.to_nat (mc * 2))
          (order_by DESC cand_bm25
             (map (keyword_select qt) (List.filter (keyword_where f qt) docs)))).
Proof.
  intros H. unfold keyword_results. rewrite (int4_mul_double mc H). simpl.
  rewrite limit_Ok by (unfold in_range in H; lia). reflexivity.
Qed.

Lemma source_url_filter_scoped (f : option string) (d : document) (u : string) :
  source_url_filter f d = true -> f = Some u -> doc_source_url d = Some u.
Proof.
  intros H ->. unfold source_url_filter in H.
  destruct (doc_source_url d) as [u'|]; [|discriminate].
  apply String.eqb_eq in H. now subst.
Qed.

(** C5.  When [match_count] is a count the function accepts, the CTE
    [vector_results] of a call holds at most [2 * match_count] candidates;
    each has a similarity strictly above the threshold of the call, which is
    0.3 when the caller leaves it out, and carries the filter's [source_url]
    when a filter is given. *)
Theorem vector_results_bounded_above_threshold_scoped docs qe given :
  let mt := or_default (match_threshold given) default_match_threshold in
  let mc := or_default (match_count given) default_match_count in
  let f := filter_source_url given in
  in_range mc ->
  exists cands,
    vector_results docs qe mt mc f = Ok cands
    /\ Z.of_nat (List.length cands) <= 2 * mc
    /\ Forall (fun c => (mt < cand_similarity c)%Q
                        /\ (match_threshold given = None -> (3 # 10 < cand_similarity c)%Q)
                        /\ forall u, f = Some u -> cand_source_url c = Some u) cands.
Proof.
  intros mt mc f H. eexists. split; [apply (vector_results_Ok _ _ _ _ _ H)|].
  split.
  - pose proof (length_firstn_le (Z.to_nat (mc * 2))
      (map (vector_select qe)
         (order_by ASC (fun d => cosine_distance (doc_embedding d) qe)
            (List.filter (vector_where mt f qe) docs)))).
    unfold in_range in H. lia.
  - apply List.Forall_forall. intros c Hc.
    apply firstn_incl in Hc. apply in_map_iff in Hc as (d & <- & Hd).
    apply order_by_In in Hd. apply filter_In in Hd as [_ Hd].
    apply andb_true_iff in Hd as [Hf Ht].
    apply Qlt_bool_iff in Ht. split; [exact Ht|]. split.
    + intros Hnone. subst mt. rewrite Hnone in Ht. exact Ht.
    + intros u Hu. simpl. now apply (source_url_filter_scoped f).
Qed.











(** *** The FULL OUTER JOIN *)








(** *** The lexical lookup, alone and inside the hybrid search *)





End queries.

(** *** Two runs *)

Section two_executors.
Context `{Ops : Operators}.
Variables Exe1 Exe2 : Executor.



End two_executors.
End SearchFacts.

(** * Properties of the intake service *)

Module IntakeFacts.
Import Intake.

Lemma type_by_precedence_types (u : string) : In (type_by_precedence u) memory_types.
Proof.
  unfold type_by_precedence, platforms, memory_types. simpl.
  repeat match goal with
         | |- context [if ?b then _ else _] => destruct b; simpl
         end; tauto.
Qed.

Lemma deriveTypeFromUrl_string (s : string) :
  s <> EmptyString ->
  deriveTypeFromUrl (JStr s) = Ok (type_by_precedence (toLowerCase s)).
Proof.
  intros Hs. unfold deriveTypeFromUrl. simpl.
  destruct (String.eqb_spec s ""); [contradiction|]. simpl.
  unfold type_by_precedence, platforms. simpl.
  repeat rewrite orb_false_r.
  repeat match goal with
         | |- context [if ?b then _ else _] => destruct b; simpl; try reflexivity
         end.
Qed.

(** C10, as the code has it.  On a string, on [null] and [undefined], and on
    any other value that counts as false, [deriveTypeFromUrl] returns one of
    the ten types: ['text'] for a value that counts as false (the empty
    string among them), and for any other string the type of the first
    platform, in the order of the function, one of whose patterns occurs in
    the lower-cased string, else ['pdf'] when that string ends in ['.pdf'],
    else ['article'].  On a value that counts as true and is not a string
    the call of [toLowerCase] throws a TypeError. *)
Theorem deriveTypeFromUrl_on_strings_and_falsy (v : jsval) :
  (forall t, deriveTypeFromUrl v = Ok t -> In t memory_types)
  /\ (truthy v = false -> deriveTypeFromUrl v = Ok "text"%string)
  /\ (forall s, v = JStr s -> s <> EmptyString ->
        deriveTypeFromUrl v = Ok (type_by_precedence (toLowerCase s)))
  /\ (truthy v = false \/ (exists s, v = JStr s) ->
        exists t, deriveTypeFromUrl v = Ok t /\ In t memory_types)
  /\ (truthy v = true -> (forall s, v <> JStr s) ->
        deriveTypeFromUrl v = Err (TypeError "url.toLowerCase is not a function")).
Proof.
  assert (Hfalsy : truthy v = false -> deriveTypeFromUrl v = Ok "text"%string).
  { intros H. unfold deriveTypeFromUrl. now rewrite H. }
  assert (Hstr : forall s, v = JStr s -> s <> EmptyString ->
            deriveTypeFromUrl v = Ok (type_by_precedence (toLowerCase s))).
  { intros s -> Hs. now apply deriveTypeFromUrl_string. }
  assert (Hother : truthy v = true -> (forall s, v <> JStr s) ->
            deriveTypeFromUrl v = Err (TypeError "url.toLowerCase is not a function")).
  { intros H Hno. unfold deriveTypeFromUrl. rewrite H. simpl.
    destruct v as [ | | b | n | s | elements | properties]; try reflexivity.
    now destruct (Hno s). }
  assert (Htotal : truthy v = false \/ (exists s, v = JStr s) ->
            exists t, deriveTypeFromUrl v = Ok t /\ In t memory_types).
  { intros [H | [s ->]].
    - exists "text"%string. split; [now apply Hfalsy | now left].
    - destruct (String.eqb_spec s "") as [->|Hs].
      + exists "text"%string. split; [reflexivity | now left].
      + exists (type_by_precedence (toLowerCase s)).
        split; [now apply deriveTypeFromUrl_string | apply type_by_precedence_types]. }
  repeat split; trivial.
  intros t Ht. destruct (Sumbool.sumbool_of_bool (truthy v)) as [E|E].
  - destruct v as [ | | b | n | s | elements | properties];
      try (rewrite Hother in Ht; [discriminate | exact E | discriminate]).
    destruct (Htotal (or_intror (ex_intro _ s eq_refl))) as (t' & Ht' & Hin).
    congruence.
  - rewrite (Hfalsy E) in Ht. injection Ht as <-. now left.
Qed.

(** *** Reasoning about actions *)

Lemma action_bind_inv {A B : Type} (c : action A) (k : A -> action B)
    (w w' : world) (r : result error B) :
  (c ≫= k) w = (r, w') ->
  (exists a w1, c w = (Ok a, w1) /\ k a w1 = (r, w'))
  \/ (exists e, c w = (Err e, w') /\ r = Err e).
Proof.
  unfold mbind, action_bind. destruct (c w) as [[a|e] w1]; intros H.
  - left. now exists a, w1.
  - right. exists e. now injection H as <- <-.
Qed.

(** An action that leaves the collection as it found it. *)
Definition keeps_db {A : Type} (c : action A) : Prop :=
  forall w, db (c w).2 = db w.

(** An action whose results all satisfy [P]. *)
Definition returns {A : Type} (P : A -> Prop) (c : action A) : Prop :=
  forall w a w', c w = (Ok a, w') -> P a.

Lemma keeps_db_ret {A : Type} (a : A) : keeps_db (mret a).
Proof. now intros w. Qed.

Lemma keeps_db_lift {A : Type} (r : result error A) : keeps_db (lift r).
Proof. now intros w. Qed.

Lemma keeps_db_throw {A : Type} (e : error) : keeps_db (@throw A e).
Proof. now intros w. Qed.

Lemma keeps_db_record_event (e : event) : keeps_db (record_event e).
Proof. now intros w. Qed.

Lemma keeps_db_bind {A B : Type} (c : action A) (k : A -> action B) :
  keeps_db c -> (forall a, keeps_db (k a)) -> keeps_db (c ≫= k).
Proof.
  intros Hc Hk w. unfold mbind, action_bind. specialize (Hc w).
  destruct (c w) as [[a|e] w1]; simpl in *; [|exact Hc].
  now rewrite (Hk a w1).
Qed.

Lemma keeps_db_try_catch {A : Type} (c : action A) (h : error -> action A) :
  keeps_db c -> (forall e, keeps_db (h e)) -> keeps_db (try_catch c h).
Proof.
  intros Hc Hh w. unfold try_catch. specialize (Hc w).
  destruct (c w) as [[a|e] w1]; simpl in *; [exact Hc|].
  now rewrite (Hh e w1).
Qed.

Lemma returns_ret {A : Type} (P : A -> Prop) (a : A) : P a -> returns P (mret a).
Proof. intros H w a' w' Heq. now injection Heq as <- <-. Qed.

Lemma returns_bind {A B : Type} (P : B -> Prop) (c : action A) (k : A -> action B) :
  (forall a, returns P (k a)) -> returns P (c ≫= k).
Proof.
  intros Hk w b w' Heq.
  apply action_bind_inv in Heq as [(a & w1 & _ & Heq) | (e & _ & Heq)];
    [now apply (Hk a w1 b w') | discriminate].
Qed.

Create HintDb intake.
#[local] Hint Resolve keeps_db_ret keeps_db_lift keeps_db_throw keeps_db_record_event
  : intake.

Ltac keeps_db_step :=
  first
    [ apply keeps_db_bind; [|intros ?]
    | apply keeps_db_try_catch; [|intros ?]
    | solve [auto with intake]
    | match goal with
      | |- keeps_db (if ?b then _ else _) => destruct b
      | |- keeps_db (let _ := _ in _) => cbv zeta
      end ].

Section handler.
Variable ToString : jsval -> string.
Variable S : services.

Lemma construct_finalMemory_keeps_db (req : body) :
  keeps_db (construct_finalMemory ToString S req).
Proof.
  unfold construct_finalMemory, call_scrapeWithFirecrawl, call_analyzeContent.
  repeat keeps_db_step.
Qed.

Lemma construct_finalMemory_url (req : body) :
  returns (fun memory : object => memory !! "url" = Some (js_or (url req) JNull))
    (construct_finalMemory ToString S req).
Proof.
  unfold construct_finalMemory. cbv zeta.
  apply returns_bind; intros isLocal.
  apply returns_bind; intros contentToAnalyze.
  apply returns_bind; intros analysisData.
  apply returns_bind; intros type.
  apply returns_ret. now simplify_map_eq.
Qed.

(** What step 7 does. *)
Lemma save_inv (memory : object) (w w' : world) (res : response) :
  save S memory w = (Ok res, w') ->
  status res = 200%nat
  /\ forall id m, json res = saved_reply id m ->
      m = memory
      /\ exists memories,
           db w = Some memories /\ memories !! id = None
           /\ db w' = Some (<[id := memory]> memories).
Proof.
  unfold save. intros H.
  apply action_bind_inv in H as [(d & w1 & Hread & H) | (e & _ & H)]; [|discriminate].
  injection Hread as <- <-.
  destruct (db w) as [memories|].
  - apply action_bind_inv in H as [(id & w1 & Hadd & H) | (e & _ & H)]; [|discriminate].
    injection H as <- <-. split; [reflexivity|]. simpl. intros id' m Heq.
    injection Heq as <- <-. split; [reflexivity|]. exists memories.
    split; [reflexivity|].
    unfold collection_add in Hadd.
    apply action_bind_inv in Hadd as [(i & w2 & Hid & Hadd) | (e & _ & Hadd)];
      [|discriminate].
    unfold lift in Hid. injection Hid as Hid <-.
    destruct (memories !! i) eqn:E; [discriminate|].
    injection Hadd as <- <-. now split.
  - injection H as <- <-. split; [reflexivity|]. simpl. discriminate.
Qed.

Lemma process_inv (req : body) (w w' : world) (res : response) :
  process ToString S req w = (Ok res, w') ->
  status res = 200%nat
  /\ forall id m, json res = saved_reply id m ->
      m !! "url" = Some (js_or (url req) JNull)
      /\ exists memories,
           db w = Some memories /\ memories !! id = None
           /\ db w' = Some (<[id := m]> memories).
Proof.
  unfold process. intros H.
  apply action_bind_inv in H as [(memory & w1 & Hc & H) | (e & _ & H)]; [|discriminate].
  apply save_inv in H as [Hs H]. split; [exact Hs|].
  intros id m Hj. destruct (H id m Hj) as (-> & memories & Hdb & Hnew & Hdb').
  split; [exact (construct_finalMemory_url req w memory w1 Hc)|].
  exists memories. pose proof (construct_finalMemory_keeps_db req w) as Hkeep.
  rewrite Hc in Hkeep. simpl in Hkeep. now rewrite <- Hkeep.
Qed.


Lemma receive_data_saved_inv (req : body) (w w' : world) (res : response)
    (id : string) (m : object) :
  receive_data ToString S req w = (res, w') ->
  json res = saved_reply id m ->
  m !! "url" = Some (js_or (url req) JNull)
  /\ exists memories,
       db w = Some memories /\ memories !! id = None
       /\ db w' = Some (<[id := m]> memories).
Proof.
  unfold receive_data. intros H Hj.
  destruct (negb (truthy (url req)) && negb (truthy (text req))).
  - injection H as <- <-. discriminate.
  - destruct (process ToString S req w) as [[res0|e] w0] eqn:P.
    + injection H as <- <-. now apply (process_inv req w w0 res0 P).
    + injection H as <- <-. discriminate.
Qed.

End handler.

Lemma entries_for_insert (u id : string) (m : object) (memories : gmap string object) :
  memories !! id = None ->
  has_url u m = true ->
  entries_for u (<[id := m]> memories) = Datatypes.S (entries_for u memories).
Proof.
  intros Hnew Hu. unfold entries_for.
  rewrite map_filter_insert_True by (simpl; now rewrite Hu).
  apply map_size_insert_None. apply map_lookup_filter_None_2. now left.
Qed.

(** C8, as the code has it.  The handler does not look for an earlier entry
    of the same address: every submission that is answered with an id has
    created a new entry under an id that was not in use, and has left the
    entries that were there in place.  After the same source went in twice,
    the collection holds two more entries for its address than before, the
    first of them still there. *)
Theorem resubmission_adds_a_second_entry (ToString : jsval -> string)
    (S1 S2 : services) (req : body) (u : string)
    (w0 w1 w2 : world) (res1 res2 : response) (id1 id2 : string) (m1 m2 : object) :
  url req = JStr u ->
  u <> EmptyString ->
  receive_data ToString S1 req w0 = (res1, w1) ->
  json res1 = saved_reply id1 m1 ->
  receive_data ToString S2 req w1 = (res2, w2) ->
  json res2 = saved_reply id2 m2 ->
  exists memories0 memories2,
    db w0 = Some memories0
    /\ db w2 = Some memories2
    /\ memories2 = <[id2 := m2]> (<[id1 := m1]> memories0)
    /\ memories0 !! id1 = None
    /\ memories0 !! id2 = None
    /\ id2 <> id1
    /\ memories2 !! id1 = Some m1
    /\ memories2 !! id2 = Some m2
    /\ has_url u m1 = true
    /\ has_url u m2 = true
    /\ entries_for u memories2 = (2 + entries_for u memories0)%nat.
Proof.
  intros Hurl Hu H1 Hj1 H2 Hj2.
  destruct (receive_data_saved_inv ToString S1 req w0 w1 res1 id1 m1 H1 Hj1)
    as (Hm1 & c0 & Hdb0 & Hnew1 & Hdb1).
  destruct (receive_data_saved_inv ToString S2 req w1 w2 res2 id2 m2 H2 Hj2)
    as (Hm2 & c1 & Hdb1' & Hnew2 & Hdb2).
  rewrite Hdb1 in Hdb1'. injection Hdb1' as <-.
  assert (Hor : js_or (url req) JNull = JStr u).
  { rewrite Hurl. unfold js_or. simpl. now destruct (String.eqb_spec u ""). }
  rewrite Hor in Hm1, Hm2.
  assert (Hu1 : has_url u m1 = true)
    by (unfold has_url; rewrite Hm1; apply String.eqb_refl).
  assert (Hu2 : has_url u m2 = true)
    by (unfold has_url; rewrite Hm2; apply String.eqb_refl).
  assert (Hne : id2 <> id1).
  { intros ->. now rewrite lookup_insert_eq in Hnew2. }
  exists c0, (<[id2 := m2]> (<[id1 := m1]> c0)).
  repeat split; trivial.
  - now rewrite lookup_insert_ne in Hnew2 by (intros E; now apply Hne).
  - rewrite lookup_insert_ne by exact Hne. apply lookup_insert_eq.
  - apply lookup_insert_eq.
  - rewrite (entries_for_insert u id2 m2 _ Hnew2 Hu2).
    now rewrite (entries_for_insert u id1 m1 _ Hnew1 Hu1).
Qed.

End IntakeFacts.

Module SearchExamples.
Import HybridSearch SearchFacts.

#[local] Existing Instance word_operators.

Definition rust_doc : document :=
  {| doc_id := 1;
     doc_content := "Rust ownership tutorial";
     doc_source_url := Some "https://blog.example/rust"%string;
     doc_metadata := "{}";
     doc_embedding := [0; 1]%Q |}.

Definition safety_doc : document :=
  {| doc_id := 2;
     doc_content := "Memory safety without a garbage collector";
     doc_source_url := Some "https://blog.example/safety"%string;
     doc_metadata := "{}";
     doc_embedding := [4 # 5; 3 # 5]%Q |}.

Definition borrow_doc : document :=
  {| doc_id := 3;
     doc_content := "Borrowing in Rust and lifetimes in Rust";
     doc_source_url := Some "https://blog.example/rust"%string;
     doc_metadata := "{}";
     doc_embedding := [3 # 5; 4 # 5]%Q |}.


Definition about_rust : list Q := [1; 0]%Q.

Definition defaults : optional_arguments :=
  {| match_threshold := None; match_count := None; filter_source_url := None;
     vector_weight := None; keyword_weight := None |}.




Definition library : list document := [rust_doc; safety_doc; borrow_doc].

Lemma vector_results_bounded_above_threshold_scoped_witness :
  in_range 10
  /\ exists cands,
       @vector_results _ merge_executor library about_rust (3 # 10) 10 None = Ok cands
       /\ Z.of_nat (List.length cands) <= 2 * 10
       /\ Forall (fun c => (3 # 10 < cand_similarity c)%Q
                           /\ (@None Q = None -> (3 # 10 < cand_similarity c)%Q)
                           /\ forall u, @None string = Some u -> cand_source_url c = Some u)
            cands.
Proof.
  split; [unfold in_range; lia|].
  apply (@vector_results_bounded_above_threshold_scoped _ merge_executor
           library about_rust defaults).
  unfold in_range, defaults, default_match_count; simpl; lia.
Defined.











End SearchExamples.

Module IntakeExamples.
Import Intake IntakeFacts.

(** Collaborators that always answer: a scraped page, an analysis with a
    title and a summary, and identifiers numbered by the size of the
    collection. *)
Definition answering : services :=
  {| scrapeWithFirecrawl := fun _ =>
       Ok {| markdown := JStr "# A page"; metadata := JObj [] |};
     analyzeContent := fun _ =>
       Ok (<["title" := JStr "A page"]> (<["summary" := JStr "About a page"]> ∅));
     toISOString_now := "2025-01-01T00:00:00.000Z";
     auto_id := fun memories => Ok ("memory-" +:+ pretty (size memories)) |}.

(** ToString on the values the examples print. *)
Definition to_string (v : jsval) : string :=
  match v with
  | JStr s => s
  | JUndefined => "undefined"
  | JNull => "null"
  | JBool true => "true"
  | JBool false => "false"
  | _ => "[object]"
  end.

Definition page : string := "https://blog.example/a-page".

Definition submission : body :=
  {| url := JStr page; text := JUndefined; title := JUndefined |}.

Definition empty_world : world := {| db := Some ∅; log := [] |}.

Definition once : response * world := receive_data to_string answering submission empty_world.
Definition twice : response * world := receive_data to_string answering submission once.2.

Definition memory_of (res : response) : object :=
  match json res with
  | saved_reply _ memory | unsaved_reply memory _ => memory
  | error_reply _ => ∅
  end.

(** C8 as the specification words it fails: the same body submitted twice
    to an empty collection is answered twice with a new id, and the
    collection then holds two entries for the address, where one submission
    left one. *)
Lemma second_submission_is_a_second_entry :
  json once.1 = saved_reply "memory-0" (memory_of once.1)
  /\ json twice.1 = saved_reply "memory-1" (memory_of twice.1)
  /\ memory_of once.1 !! "url" = Some (JStr page)
  /\ memory_of twice.1 !! "url" = Some (JStr page)
  /\ option_map (entries_for page) (db once.2) = Some 1%nat
  /\ option_map (entries_for page) (db twice.2) = Some 2%nat
  /\ option_map (entries_for page) (db twice.2)
     <> option_map (entries_for page) (db once.2)
  /\ option_map size (db twice.2) = Some 2%nat.
Proof. repeat split; vm_compute; try reflexivity. discriminate. Qed.

Lemma resubmission_adds_a_second_entry_witness :
  exists memories0 memories2,
    db empty_world = Some memories0
    /\ db twice.2 = Some memories2
    /\ memories2
       = <["memory-1" := memory_of twice.1]> (<["memory-0" := memory_of once.1]> memories0)
    /\ memories0 !! "memory-0" = None
    /\ memories0 !! "memory-1" = None
    /\ "memory-1" <> "memory-0"
    /\ memories2 !! "memory-0" = Some (memory_of once.1)
    /\ memories2 !! "memory-1" = Some (memory_of twice.1)
    /\ has_url page (memory_of once.1) = true
    /\ has_url page (memory_of twice.1) = true
    /\ entries_for page memories2 = (2 + entries_for page memories0)%nat.
Proof.
  apply (resubmission_adds_a_second_entry to_string answering answering submission page
           empty_world once.2 twice.2 once.1 twice.1).
  - reflexivity.
  - discriminate.
  - apply surjective_pairing.
  - vm_compute; reflexivity.
  - apply surjective_pairing.
  - vm_compute; reflexivity.
Defined.

(** C10 as the specification words it fails: an array is a value the
    handler passes on (a body whose [url] is an array and whose [text] is
    there reaches the call when scraping fails), and on it the function
    throws instead of returning a type. *)
Lemma deriveTypeFromUrl_throws_on_an_array :
  deriveTypeFromUrl (JArr [JStr page])
  = Err (TypeError "url.toLowerCase is not a function")
  /\ ~ (exists t, deriveTypeFromUrl (JArr [JStr page]) = Ok t)
  /\ status
       (receive_data to_string
          {| scrapeWithFirecrawl := fun _ => Err (Error "Request failed with status code 400");
             analyzeContent := analyzeContent answering;
             toISOString_now := toISOString_now answering;
             auto_id := auto_id answering |}
          {| url := JArr [JStr page]; text := JStr "a note"; title := JUndefined |}
          empty_world).1 = 500%nat.
Proof.
  split; [reflexivity|]. split; [|vm_compute; reflexivity].
  intros [t H]. discriminate H.
Qed.

End IntakeExamples.

(** * The two helpers of [server.js] that call out *)

Module Firecrawl.
Import Intake.

(** The property [key] of an object given by its entries: the last entry
    wins, as in [JSON.parse]. *)
Definition own_property (properties : list (string * jsval)) (key : string) : jsval :=
  match find (fun p => String.eqb (fst p) key) (rev properties) with
  | Some p => snd p
  | None => JUndefined
  end.

(** [v.key]: a TypeError on [undefined] and [null], the own property of an
    object, and [undefined] on any other value, for the keys read here, none
    of which a string, a number, a boolean or an array has.  The one
    exception is [markdown.length], which the code reads for a log line:
    whether that read throws is all that is used of it. *)
Definition read (v : jsval) (key : string) : result error jsval :=
  match v with
  | JUndefined =>
      Err (TypeError ("Cannot read properties of undefined (reading '" +:+ key +:+ "')"))
  | JNull =>
      Err (TypeError ("Cannot read properties of null (reading '" +:+ key +:+ "')"))
  | JObj properties => Ok (own_property properties key)
  | _ => Ok JUndefined
  end.

(** [a && b], with [b] evaluated only when [a] counts as true. *)
Definition js_and (a : jsval) (b : result error jsval) : result error jsval :=
  if truthy a then b else Ok a.

(** The request [axios.post] sends. *)
Record request : Type := {
  endpoint : string;
  body_url : jsval;
  body_formats : list string;
  body_onlyMainContent : bool;
  header_Authorization : string;
  header_Content_Type : string
}.

(** [process.env.FIRECRAWL_API_KEY], and Firecrawl behind [axios.post]: the
    [data] of the response, or what the call throws. *)
Record outside : Type := {
  FIRECRAWL_API_KEY : option string;
  axios_post : request -> result error jsval
}.

(** [scrapeWithFirecrawl(url)]: what it returns or throws, and the requests
    it sent. *)
Definition scrapeWithFirecrawl (O : outside) (url : jsval)
  : result error jsval * list request :=
  let apiKey := match FIRECRAWL_API_KEY O with
                | Some key => JStr key
                | None => JUndefined
                end in
  if negb (truthy apiKey) then (Err (Error "Missing FIRECRAWL_API_KEY"), [])
  else
    let request :=
      {| endpoint := "https://api.firecrawl.dev/v1/scrape";
         body_url := url;
         body_formats := ["markdown"%string];
         body_onlyMainContent := true;
         header_Authorization :=
           "Bearer " +:+ match FIRECRAWL_API_KEY O with Some key => key | None => "" end;
         header_Content_Type := "application/json" |} in
    (response_data ← axios_post O request;
     ok ← js_and response_data
            (success ← read response_data "success";
             js_and success (read response_data "data"));
     if truthy ok then
       data ← read response_data "data";
       markdown ← read data "markdown";
       _ ← read markdown "length";
       Ok data
     else Err (Error "Firecrawl returned unsuccessful response"),
     [request]).

(** The handler's reads of the scrape result. *)
Definition scraped_of (data : jsval) : scraped :=
  {| markdown := match read data "markdown" with Ok v => v | Err _ => JUndefined end;
     metadata := match read data "metadata" with Ok v => v | Err _ => JUndefined end |}.


End Firecrawl.

Module Analysis.
Import Intake.

Definition quote : string := String (ascii_of_nat 34) EmptyString.
Definition backtick : ascii := ascii_of_nat 96.
Definition fence : string := String backtick (String backtick (String backtick EmptyString)).

(** White space as [trim] sees it, among ASCII characters: tab, line feed,
    vertical tab, form feed, carriage return and space. *)
Definition is_space (c : ascii) : bool :=
  let n := nat_of_ascii c in
  ((9 <=? n)%nat && (n <=? 13)%nat) || (n =? 32)%nat.

Fixpoint trimStart (s : string) : string :=
  match s with
  | EmptyString => EmptyString
  | String c s' => if is_space c then trimStart s' else s
  end.

(** [s.trimEnd()]: the characters of [s] up to its last one that is not
    white space. *)
Fixpoint trimEnd (s : string) : string :=
  match s with
  | EmptyString => EmptyString
  | String c s' =>
      match trimEnd s' with
      | EmptyString => if is_space c then EmptyString else String c EmptyString
      | rest => String c rest
      end
  end.

(** [s.trim()] *)
Definition trim (s : string) : string := trimEnd (trimStart s).

(** [s.replace(/```json\n?|```/g, '')]: one pass from the left; where the
    fence with [json] stands it goes with an optional line feed after it,
    elsewhere a bare fence goes; [skip] counts the characters of a match
    still to drop. *)
Fixpoint strip_fences_from (skip : nat) (s : string) : string :=
  match s with
  | EmptyString => EmptyString
  | String c s' =>
      match skip with
      | Datatypes.S k => strip_fences_from k s'
      | 0%nat =>
          if String.prefix (fence +:+ "json" +:+ newline) s then strip_fences_from 7 s'
          else if String.prefix (fence +:+ "json") s then strip_fences_from 6 s'
          else if String.prefix fence s then strip_fences_from 2 s'
          else String c (strip_fences_from 0 s')
      end
  end.

Definition strip_fences (s : string) : string := strip_fences_from 0 s.

(** The length [substring(0, 50000)] cuts at. *)
Definition prompt_limit : nat := N.to_nat 50000.

(** The clock, Mistral behind [mistral.chat] (the content of the first
    choice of the completion for a system and a user message, or what the
    call or the way to that content throws), and [JSON.parse]. *)
Record environment : Type := {
  toISOString_now : string;
  chat : string -> string -> result error jsval;
  JSON_parse : string -> result error jsval
}.

Definition systemPrompt (todaysTimestamp : string) : string :=
  newline
  +:+ "        You are an expert data analysis engine. Your task is to analyze raw text and extract specific information."
  +:+ newline
  +:+ "        The output MUST be a valid JSON object and nothing else."
  +:+ newline
  +:+ "        The JSON object must have these keys: " +:+ quote +:+ "title" +:+ quote
  +:+ ", " +:+ quote +:+ "summary" +:+ quote +:+ ", " +:+ quote +:+ "keywords" +:+ quote
  +:+ " (an array), " +:+ quote +:+ "emotions" +:+ quote +:+ " (an array),"
  +:+ newline
  +:+ "        " +:+ quote +:+ "timestamp" +:+ quote +:+ " (use " +:+ todaysTimestamp
  +:+ " if none is found), and " +:+ quote +:+ "source_url" +:+ quote
  +:+ " (return null if not found)."
  +:+ newline +:+ "    ".

Definition userPrompt (text : string) : string :=
  "Analyze this text:" +:+ newline +:+ "---" +:+ newline
  +:+ String.substring 0 prompt_limit text
  +:+ "... (truncated if too long)" +:+ newline +:+ "---".

(** [analyzeContent(text)]: what it returns or throws, and the messages it
    sent to Mistral. *)
Definition analyzeContent (O : environment) (text : jsval)
  : result error jsval * list (string * string) :=
  match text with
  | JStr text =>
      let system := systemPrompt (toISOString_now O) in
      let user := userPrompt text in
      (content ← chat O system user;
       match js_or content (JStr "{}") with
       | JStr jsonResponseText =>
           data ← JSON_parse O (trim (strip_fences jsonResponseText));
           _ ← Firecrawl.read data "emotions";
           Ok data
       | _ => Err (TypeError "jsonResponseText.replace is not a function")
       end,
       [(system, user)])
  | _ =>
      (match Firecrawl.read text "substring" with
       | Err e => Err e
       | Ok _ => Err (TypeError "text.substring is not a function")
       end, [])
  end.

(** Whether a text is free of backticks. *)
Definition no_backtick (s : string) : bool :=
  forallb (fun c => negb (Ascii.eqb c backtick)) (list_ascii_of_string s).

End Analysis.

(** * The scoring function of the migration *)

Module Bm25.
Import HybridSearch.

Section Scoring.
Context `{Ops : Operators}.

(** The DEFAULT clauses of [bm25_score]. *)
Definition default_k1 : Q := 15 # 10.
Definition default_b : Q := 75 # 100.


End Scoring.
End Bm25.

(** * The quick-add form, a caller of [POST /receive_data] *)

Module QuickAdd.

(** The state of the component. *)
Record state : Type := {
  title : string;
  content : string;
  loading : bool;
  error : option string
}.

(** [s.startsWith(prefix)] *)
Definition startsWith (s prefix : string) : bool := String.prefix prefix s.

(** The [payload] of [onAdd] as the server reads it: [JSON.stringify] and
    [express.json()] carry strings and [null] over as they are. *)
Definition payload (st : state) : Intake.body :=
  let trimmedContent := Analysis.trim (content st) in
  let is_link :=
    startsWith trimmedContent "http://" || startsWith trimmedContent "https://" in
  {| Intake.url := if is_link then Intake.JStr trimmedContent else Intake.JNull;
     Intake.text := Intake.JStr (if is_link then "" else trimmedContent);
     Intake.title := Intake.JStr (Analysis.trim (title st)) |}.

(** What [fetch] resolves to: the status of the answer, and what
    [response.json()] gives or throws. *)
Record fetched (A : Type) : Type := {
  response_status : nat;
  response_json : result Intake.error A
}.
Arguments response_status {A} _.
Arguments response_json {A} _.

(** [response.ok] *)
Definition ok {A : Type} (response : fetched A) : bool :=
  (200 <=? response_status response)%nat && (response_status response <=? 299)%nat.

(** The state after [onAdd], and whether [onClose] was called. *)
Record after : Type := {
  now : state;
  closed : bool
}.

Definition failed (st : state) (message : string) : after :=
  {| now := {| title := title st; content := content st; loading := false;
               error := Some message |};
     closed := false |}.

(** [onAdd()], with the other end of [fetch] as a state-passing function:
    what the call resolves to or rejects with, and the state it leaves
    there. *)
Definition onAdd {W A : Type}
    (fetch : Intake.body -> W -> result Intake.error (fetched A) * W)
    (st : state) (w : W) : after * W :=
  if String.eqb (Analysis.trim (title st)) "" && String.eqb (Analysis.trim (content st)) ""
  then
    ({| now := {| title := title st; content := content st; loading := loading st;
                  error := Some "Please enter a title or some content."%string |};
        closed := false |}, w)
  else
    match fetch (payload st) w with
    | (Ok response, w') =>
        if negb (ok response) then
          (failed st ("Server responded with status: " +:+ pretty (response_status response)),
           w')
        else
          match response_json response with
          | Ok _ =>
              ({| now := {| title := ""; content := ""; loading := false; error := None |};
                  closed := true |}, w')
          | Err e => (failed st (Intake.message e), w')
          end
    | (Err e, w') => (failed st (Intake.message e), w')
    end.

(** [fetch('http://localhost:3001/receive_data', ..)] when the service of
    [server.js] is listening there. *)
Definition fetch_receive_data (ToString : Intake.jsval -> string) (S : Intake.services)
    (payload : Intake.body) (w : Intake.world)
  : result Intake.error (fetched Intake.reply) * Intake.world :=
  let answer := Intake.receive_data ToString S payload w in
  (Ok {| response_status := Intake.status answer.1;
         response_json := Ok (Intake.json answer.1) |}, answer.2).

End QuickAdd.

(** * More on the intake handler *)

Module IntakeMore.
Import Intake IntakeFacts.

Lemma js_or_truthy (a b : jsval) : truthy b = true -> truthy (js_or a b) = true.
Proof. intros H. unfold js_or. now destruct (truthy a) eqn:E. Qed.





(** Case analysis on every [match] of the goal, innermost first. *)
Ltac split_cases :=
  repeat match goal with
         | |- context [match ?x with _ => _ end] =>
             lazymatch x with
             | context [match _ with _ => _ end] => fail
             | _ => destruct x eqn:?; cbn
             end
         end.

(** The handler, unfolded to its calls. *)
Ltac run_handler :=
  unfold receive_data, process, construct_finalMemory, save, call_scrapeWithFirecrawl,
    call_analyzeContent, collection_add, read_db, record_event, lift, throw, try_catch,
    mbind, mret, action_bind, action_ret.

(** The log of a run as what the handler added to it. *)
Ltac name_parts :=
  rewrite <- ?app_assoc; cbn [app];
  lazymatch goal with
  | |- exists scr ana add, log ?w ++ [Scrape ?u; Analyze ?c; Add ?i ?m] = _ /\ _ =>
      exists [Scrape u], [Analyze c], [Add i m]
  | |- exists scr ana add, log ?w ++ [Analyze ?c; Add ?i ?m] = _ /\ _ =>
      exists [], [Analyze c], [Add i m]
  | |- exists scr ana add, log ?w ++ [Scrape ?u; Analyze ?c] = _ /\ _ =>
      exists [Scrape u], [Analyze c], []
  | |- exists scr ana add, log ?w ++ [Scrape ?u] = _ /\ _ =>
      exists [Scrape u], [], []
  | |- exists scr ana add, log ?w ++ [Analyze ?c] = _ /\ _ =>
      exists [], [Analyze c], []
  | |- exists scr ana add, log ?w = _ /\ _ =>
      exists [], [], []; cbn [app]; rewrite ?app_nil_r
  end.


Section handler.
Variable ToString : jsval -> string.
Variable S : services.

(** Every way through the handler: what it adds to the log, and what
    becomes of the collection. *)
Lemma receive_data_outcome (req : body) (w : world) :
  exists scr ana add,
    log (receive_data ToString S req w).2 = log w ++ scr ++ ana ++ add
    /\ (scr = [] \/ scr = [Scrape (url req)])
    /\ (ana = [] \/ exists c, ana = [Analyze c] /\ truthy c = true)
    /\ ((add = [] /\ db (receive_data ToString S req w).2 = db w
         /\ (forall i m, json (receive_data ToString S req w).1 <> saved_reply i m)
         /\ (status (receive_data ToString S req w).1 = 200%nat ->
             db w = None
             /\ exists m, json (receive_data ToString S req w).1
                          = unsaved_reply m "Not saved to DB (Config missing)"))
        \/ (exists i m memories,
              add = [Add i m] /\ ana <> []
              /\ (receive_data ToString S req w).1
                 = {| status := 200; json := saved_reply i m |}
              /\ db w = Some memories /\ memories !! i = None
              /\ db (receive_data ToString S req w).2 = Some (<[i := m]> memories))).
Proof.
  unfold receive_data, process, construct_finalMemory, save, call_scrapeWithFirecrawl,
    call_analyzeContent, collection_add, read_db, record_event, lift, throw, try_catch,
    mbind, mret, action_bind, action_ret.
  cbn. split_cases; name_parts.
  all: split; [reflexivity|].
  all: split; [auto|].
  all: split; [first [now left | right; eexists; split; [reflexivity|];
                      apply js_or_truthy; reflexivity]|].
  all: first [ solve [left; repeat split; try reflexivity; intros;
                      first [discriminate | eexists; reflexivity]]
             | solve [right; do 3 eexists; repeat split;
                      try reflexivity; try eassumption; discriminate] ].
Qed.

(** X1.  Within one request the handler calls [scrapeWithFirecrawl] at most
    once, for the url of the body, then [analyzeContent] at most once, on
    content that counts as true (never the empty string), then adds at most
    one document; it adds one only after an analysis, and only in a request
    it answers with that document's id. *)
Theorem one_scrape_one_analysis_one_add (req : body) (w : world) :
  exists scr ana add,
    log (receive_data ToString S req w).2 = log w ++ scr ++ ana ++ add
    /\ (scr = [] \/ scr = [Scrape (url req)])
    /\ (ana = [] \/ exists c, ana = [Analyze c] /\ truthy c = true)
    /\ (add = []
        \/ exists i m, add = [Add i m] /\ ana <> []
                       /\ json (receive_data ToString S req w).1 = saved_reply i m).
Proof.
  destruct (receive_data_outcome req w) as (scr & ana & add & Hlog & Hs & Ha & Hadd).
  exists scr, ana, add. repeat split; trivial.
  destruct Hadd as [(-> & _) | (i & m & c & -> & Hana & Hres & _)]; [now left|].
  right. exists i, m. rewrite Hres. now repeat split.
Qed.

(** X2.  The collection changes only in a request that is answered 200 with
    an id, and then by that one new document: a request answered 400 or 500,
    and one answered without an id, leaves the collection as it was. *)
Theorem collection_changes_only_with_an_id (req : body) (w : world) :
  let res := (receive_data ToString S req w).1 in
  let w' := (receive_data ToString S req w).2 in
  (status res <> 200%nat -> db w' = db w)
  /\ ((forall i m, json res <> saved_reply i m) -> db w' = db w)
  /\ (forall i m, json res = saved_reply i m ->
        status res = 200%nat
        /\ exists memories,
             db w = Some memories /\ memories !! i = None
             /\ db w' = Some (<[i := m]> memories)
             /\ forall j, j <> i -> (<[i := m]> memories) !! j = memories !! j).
Proof.
  intros res w'. subst res w'.
  destruct (receive_data_outcome req w) as (scr & ana & add & _ & _ & _ & Hadd).
  destruct Hadd as [(_ & Hdb & Hno & _) | (i & m & c & _ & _ & Hres & Hw & Hnew & Hdb)].
  - split; [trivial|]. split; [trivial|]. intros i m Hj. now destruct (Hno i m).
  - rewrite Hres. simpl. split; [intros H; now destruct H|].
    split; [intros H; now destruct (H i m)|].
    intros i' m' Heq. injection Heq as <- <-. split; [reflexivity|].
    exists c. repeat split; trivial. intros j Hj. now apply lookup_insert_ne.
Qed.

(** X3.  When the service account key was not found ([db] was never set),
    no request writes anything: the handler adds no document, [db] stays
    unset, and a request that succeeds is answered 200 with the memory and
    the warning that it was not saved. *)
Theorem nothing_is_stored_without_db (req : body) (w : world) :
  db w = None ->
  let res := (receive_data ToString S req w).1 in
  let w' := (receive_data ToString S req w).2 in
  db w' = None
  /\ (forall i m, ~ In (Add i m) (skipn (List.length (log w)) (log w')))
  /\ (forall i m, json res <> saved_reply i m)
  /\ (status res = 200%nat ->
        exists m, json res = unsaved_reply m "Not saved to DB (Config missing)").
Proof.
  intros Hnone res w'. subst res w'.
  destruct (receive_data_outcome req w) as (scr & ana & add & Hlog & Hs & Ha & Hadd).
  destruct Hadd as [(Hnil & Hdb & Hno & Hok) | (i & m & c & _ & _ & _ & Hw & _)];
    [subst add|congruence].
  split; [congruence|]. split; [|split; [exact Hno | intros H; now apply Hok]].
  intros i m. rewrite Hlog, skipn_app, Nat.sub_diag, skipn_all. simpl.
  rewrite app_nil_r. intros Hin. apply in_app_or in Hin as [Hin|Hin].
  - destruct Hs as [-> | ->]; [destruct Hin | now destruct Hin].
  - destruct Ha as [-> | (c & -> & _)]; [destruct Hin | now destruct Hin].
Qed.










Lemma deriveTypeFromUrl_types (v : jsval) (t : string) :
  deriveTypeFromUrl v = Ok t -> In t memory_types /\ js_or (JStr t) (JStr "note") = JStr t.
Proof.
  intros H.
  assert (Hin : In t memory_types).
  { unfold deriveTypeFromUrl in H. destruct (truthy v) eqn:E; simpl in H.
    - destruct v as [ | | b | n | s | elements | properties]; try discriminate.
      assert (Hs : s <> EmptyString)
        by (intros ->; discriminate).
      pose proof (deriveTypeFromUrl_string s Hs) as Hd.
      unfold deriveTypeFromUrl in Hd. simpl in Hd.
      destruct (String.eqb_spec s ""); [contradiction|]. simpl in Hd.
      rewrite Hd in H. injection H as <-. apply type_by_precedence_types.
    - injection H as <-. now left. }
  split; [exact Hin|].
  unfold memory_types in Hin. simpl in Hin.
  repeat (destruct Hin as [<-|Hin]; [reflexivity|]). destruct Hin.
Qed.

(** The keys the handler sets itself. *)
Definition set_by_handler : list string :=
  ["title"; "url"; "original_url"; "firecrawl_metadata"; "full_content";
   "created_at"; "type"; "favorite"]%string.

Lemma finalMemory_other_keys (data : object) (k : string)
    (v1 v2 v3 v4 v5 v6 v7 v8 : jsval) :
  ~ In k set_by_handler ->
  (<["favorite" := v1]> (<["type" := v2]> (<["created_at" := v3]>
     (<["full_content" := v4]> (<["firecrawl_metadata" := v5]>
        (<["original_url" := v6]> (<["url" := v7]> (<["title" := v8]> data)))))))) !! k
  = data !! k.
Proof.
  intros Hk. unfold set_by_handler in Hk. simpl in Hk.
  rewrite !lookup_insert_ne; [reflexivity | intros <-; tauto ..].
Qed.

(** The object literal of step 6. *)
Definition finalMemory_literal (req : body) (type : string) (analysisData : object)
  : object :=
  <["favorite" := JBool false]>
    (<["type" := js_or (JStr type) (JStr "note")]>
       (<["created_at" := JStr (toISOString_now S)]>
          (<["full_content" := JStr ""]>
             (<["firecrawl_metadata" := JStr ""]>
                (<["original_url" := js_or (url req) JNull]>
                   (<["url" := js_or (url req) JNull]>
                      (<["title" := js_or (property analysisData "title")
                                      (js_or (title req) (JStr "Untitled Memory"))]>
                         analysisData))))))).

Lemma reply_memory_is_the_literal (req : body) (w : world) (m : object) :
  (exists i, json (receive_data ToString S req w).1 = saved_reply i m)
  \/ (exists warning, json (receive_data ToString S req w).1 = unsaved_reply m warning) ->
  exists content analysisData type,
    analyzeContent S content = Ok analysisData
    /\ deriveTypeFromUrl (js_or (url req) JNull) = Ok type
    /\ m = finalMemory_literal req type analysisData.
Proof.
  run_handler. cbn. split_cases; intros [[i H] | [x H]]; try discriminate;
    injection H as <-; intros; subst;
    do 3 eexists; (split; [eassumption|]); (split; [reflexivity|]); reflexivity.
Qed.

(** X11.  The memory a request is answered with is the analysis with eight
    keys set by the handler: [favorite] is false, [full_content] and
    [firecrawl_metadata] are empty, [url] and [original_url] are the url of
    the body (or [null]), [type] is one of the ten types, never the fallback
    ['note'], and [title] is never empty (the title of the analysis, else the
    title of the body, else ['Untitled Memory']).  Every other key is as the
    analysis returned it. *)
Theorem memory_is_the_analysis_with_eight_keys_set (req : body) (w : world)
    (m : object) :
  (exists i, json (receive_data ToString S req w).1 = saved_reply i m)
  \/ (exists warning, json (receive_data ToString S req w).1 = unsaved_reply m warning) ->
  m !! "favorite" = Some (JBool false)
  /\ m !! "full_content" = Some (JStr "")
  /\ m !! "firecrawl_metadata" = Some (JStr "")
  /\ m !! "url" = Some (js_or (url req) JNull)
  /\ m !! "original_url" = Some (js_or (url req) JNull)
  /\ m !! "created_at" = Some (JStr (toISOString_now S))
  /\ (exists t, m !! "type" = Some (JStr t)
                /\ deriveTypeFromUrl (js_or (url req) JNull) = Ok t
                /\ In t memory_types)
  /\ (exists v, m !! "title" = Some v /\ truthy v = true)
  /\ exists content analysisData,
       analyzeContent S content = Ok analysisData
       /\ m !! "title"
          = Some (js_or (property analysisData "title")
                    (js_or (title req) (JStr "Untitled Memory")))
       /\ forall k, ~ In k set_by_handler -> m !! k = analysisData !! k.
Proof.
  intros H.
  destruct (reply_memory_is_the_literal req w m H) as (c & data & t & Ha & Hd & ->).
  destruct (deriveTypeFromUrl_types _ _ Hd) as [Hin Hor].
  unfold finalMemory_literal. rewrite Hor.
  split; [now simplify_map_eq|]. split; [now simplify_map_eq|].
  split; [now simplify_map_eq|]. split; [now simplify_map_eq|].
  split; [now simplify_map_eq|]. split; [now simplify_map_eq|].
  split; [exists t; split; [now simplify_map_eq | now split]|].
  split.
  - eexists. split; [now simplify_map_eq|]. apply js_or_truthy, js_or_truthy. reflexivity.
  - exists c, data. split; [exact Ha|]. split; [now simplify_map_eq|].
    intros k Hk. now apply finalMemory_other_keys.
Qed.

End handler.
End IntakeMore.

(** * Properties of the two helpers *)

Module OutsideFacts.
Import Intake IntakeFacts IntakeMore.

Section firecrawl.
Import Firecrawl.
Variable O : Firecrawl.outside.

Lemma js_and_truthy (a : jsval) (b : result error jsval) (v : jsval) :
  js_and a b = Ok v -> truthy v = true -> truthy a = true /\ b = Ok v.
Proof.
  unfold js_and. destruct (truthy a) eqn:E; intros H Hv; [now split|].
  injection H as <-. congruence.
Qed.

Lemma read_defined (v : jsval) (key : string) (x : jsval) :
  Firecrawl.read v key = Ok x -> v <> JUndefined /\ v <> JNull.
Proof. destruct v; simpl; intros H; try discriminate; now split. Qed.

Lemma read_of_other (v : jsval) (key : string) (x : jsval) :
  read v key = Ok x -> x <> JUndefined -> exists properties, v = JObj properties.
Proof.
  destruct v as [ | | b | n | s | elements | properties]; simpl; intros H Hx;
    try discriminate; try (injection H as <-; now destruct Hx).
  now exists properties.
Qed.

Lemma read_error (v : jsval) (key : string) (e : error) :
  read v key = Err e -> exists message, e = TypeError message.
Proof. destruct v; simpl; intros H; try discriminate; injection H as <-; eauto. Qed.

(** X12.  What [scrapeWithFirecrawl] hands back when it returns: the key was
    set, one request went out for the url under that key, Firecrawl
    answered with a [success] that counts as true, and the result is the
    [data] of that answer, an object whose [markdown] is neither [undefined]
    nor [null]. *)
Theorem scrape_result_is_a_successful_answer (url data : jsval)
    (sent : list request) :
  scrapeWithFirecrawl O url = (Ok data, sent) ->
  exists key r response_data success properties markdown,
    FIRECRAWL_API_KEY O = Some key /\ key <> EmptyString
    /\ sent = [r]
    /\ endpoint r = "https://api.firecrawl.dev/v1/scrape"%string
    /\ body_url r = url
    /\ header_Authorization r = ("Bearer " +:+ key)%string
    /\ axios_post O r = Ok response_data
    /\ read response_data "success" = Ok success /\ truthy success = true
    /\ read response_data "data" = Ok data /\ truthy data = true
    /\ data = JObj properties
    /\ read data "markdown" = Ok markdown
    /\ markdown <> JUndefined /\ markdown <> JNull
    /\ Intake.markdown (scraped_of data) = markdown.
Proof.
  unfold scrapeWithFirecrawl.
  destruct (FIRECRAWL_API_KEY O) as [key|]; [|discriminate].
  simpl. destruct (String.eqb_spec key "") as [->|Hkey]; [discriminate|]. simpl.
  set (r := {| endpoint := _ |}).
  destruct (axios_post O r) as [response_data|e] eqn:Hpost; [|discriminate].
  cbn.
  destruct (js_and response_data _) as [ok|e] eqn:Hok; [|discriminate]. cbn.
  destruct (truthy ok) eqn:Htrue; [|discriminate].
  destruct (js_and_truthy _ _ _ Hok Htrue) as [Hresp Hinner].
  destruct (read response_data "success") as [success|e] eqn:Hsuccess; [|discriminate].
  cbn in Hinner.
  destruct (js_and_truthy _ _ _ Hinner Htrue) as [Hs Hdata].
  rewrite Hdata. cbn.
  destruct (read ok "markdown") as [markdown|e] eqn:Hm; [|discriminate]. cbn.
  destruct (read markdown "length") as [len|e] eqn:Hlen; [|discriminate]. cbn.
  intros H. injection H as <- <-.
  destruct (read_defined _ _ _ Hlen) as [Hu Hn].
  destruct (read_of_other _ _ _ Hm Hu) as [properties ->].
  exists key, r, response_data, success, properties, markdown.
  repeat split; trivial. unfold scraped_of. now rewrite Hm.
Qed.

(** X13.  When [scrapeWithFirecrawl] throws, it throws one of four things: the
    missing key, before any request; what [axios.post] threw; the refusal
    of an answer that is not a success; or the TypeError of reading
    [markdown.length]. *)
Theorem scrape_errors (url : jsval) (e : error) (sent : list request) :
  scrapeWithFirecrawl O url = (Err e, sent) ->
  (e = Error "Missing FIRECRAWL_API_KEY" /\ sent = []
   /\ (FIRECRAWL_API_KEY O = None \/ FIRECRAWL_API_KEY O = Some EmptyString))
  \/ (exists r, sent = [r] /\ body_url r = url
       /\ (axios_post O r = Err e
           \/ e = Error "Firecrawl returned unsuccessful response"
           \/ exists message, e = TypeError message)).
Proof.
  unfold scrapeWithFirecrawl.
  destruct (FIRECRAWL_API_KEY O) as [key|];
    [|intros H; injection H as <- <-; left; auto].
  simpl. destruct (String.eqb_spec key "") as [->|Hkey];
    [intros H; injection H as <- <-; left; auto|]. simpl.
  set (r := {| endpoint := _ |}). intros H. right. exists r.
  injection H as H <-. split; [reflexivity|]. split; [reflexivity|].
  destruct (axios_post O r) as [response_data|e'] eqn:Hpost;
    [|left; now injection H as <-].
  right. cbn in H.
  destruct (js_and response_data _) as [ok|e'] eqn:Hok; cbn in H.
  - destruct (truthy ok); [|left; now injection H as <-].
    right.
    destruct (read response_data "data") as [data|e'] eqn:Hd; cbn in H;
      [|injection H as <-; now apply read_error in Hd].
    destruct (read data "markdown") as [markdown|e'] eqn:Hm; cbn in H;
      [|injection H as <-; now apply read_error in Hm].
    destruct (read markdown "length") as [len|e'] eqn:Hl; cbn in H;
      [discriminate | injection H as <-; now apply read_error in Hl].
  - injection H as <-. right. unfold js_and in Hok.
    destruct (truthy response_data); [|discriminate].
    destruct (read response_data "success") as [success|e2] eqn:Hs; cbn in Hok;
      [|injection Hok as <-; now apply read_error in Hs].
    unfold js_and in Hok.
    destruct (truthy success); [now apply read_error in Hok | discriminate].
Qed.

End firecrawl.

Section without_a_key.
Variable ToString : jsval -> string.
Variable O : Firecrawl.outside.
Variable S : services.



End without_a_key.

Section analysis.
Import Analysis.
Variable O : Analysis.environment.

Lemma no_backtick_cons (c : ascii) (s : string) :
  no_backtick (String c s) = true -> c <> backtick /\ no_backtick s = true.
Proof.
  unfold no_backtick. simpl. intros H. apply andb_true_iff in H as [Hc Hs].
  split; [|exact Hs]. apply negb_true_iff in Hc. now apply Ascii.eqb_neq.
Qed.

Lemma prefix_fence_other (c : ascii) (s rest : string) :
  c <> backtick -> String.prefix (fence +:+ rest) (String c s) = false.
Proof.
  intros Hc.
  change (String.prefix (String backtick (String backtick (String backtick rest)))
            (String c s) = false).
  cbn [String.prefix].
  destruct (ascii_dec backtick c) as [E|E]; [now destruct Hc | reflexivity].
Qed.

Lemma strip_fences_from_plain (body tail : string) :
  no_backtick body = true ->
  strip_fences_from 0 (body +:+ tail) = body +:+ strip_fences_from 0 tail.
Proof.
  induction body as [|c body IH]; intros Hb; [reflexivity|].
  change (String c body +:+ tail) with (String c (body +:+ tail)).
  apply no_backtick_cons in Hb as [Hc Hb].
  cbn [strip_fences_from].
  rewrite (prefix_fence_other c _ ("json" +:+ newline) Hc).
  rewrite (prefix_fence_other c _ "json" Hc).
  replace fence with (fence +:+ "") by reflexivity.
  rewrite (prefix_fence_other c _ "" Hc).
  change (String c body +:+ strip_fences_from 0 tail)
    with (String c (body +:+ strip_fences_from 0 tail)).
  f_equal. now apply IH.
Qed.

Lemma trimStart_space_end (s : string) (c : ascii) :
  is_space c = true ->
  trimStart (s +:+ String c EmptyString)
  = match trimStart s with
    | EmptyString => EmptyString
    | t => t +:+ String c EmptyString
    end.
Proof.
  intros Hc. induction s as [|d s IH]; simpl; [now rewrite Hc|].
  destruct (is_space d); [exact IH | reflexivity].
Qed.

Lemma trimEnd_space_end (s : string) (c : ascii) :
  is_space c = true -> trimEnd (s +:+ String c EmptyString) = trimEnd s.
Proof.
  intros Hc. induction s as [|d s IH]; simpl; [now rewrite Hc|]. now rewrite IH.
Qed.

Lemma trim_space_end (s : string) (c : ascii) :
  is_space c = true -> trim (s +:+ String c EmptyString) = trim s.
Proof.
  intros Hc. unfold trim. rewrite (trimStart_space_end s c Hc).
  destruct (trimStart s) as [|d t]; [reflexivity|].
  apply (trimEnd_space_end (String d t) c Hc).
Qed.

Lemma prefix_nil (s : string) : String.prefix "" s = true.
Proof. now destruct s. Qed.

Lemma prefix_cons (c : ascii) (s1 s2 : string) :
  String.prefix (String c s1) (String c s2) = String.prefix s1 s2.
Proof. cbn [String.prefix]. destruct (ascii_dec c c); [reflexivity | congruence]. Qed.

Lemma strip_json_fence (rest : string) :
  strip_fences_from 0 (fence +:+ "json" +:+ newline +:+ rest) = strip_fences_from 0 rest.
Proof.
  change (fence +:+ "json" +:+ newline +:+ rest)
    with (String backtick (String backtick (String backtick
           (String "j" (String "s" (String "o" (String "n"
             (String (ascii_of_nat 10) rest)))))))).
  cbn [strip_fences_from].
  change (fence +:+ "json" +:+ newline)
    with (String backtick (String backtick (String backtick
           (String "j" (String "s" (String "o" (String "n"
             (String (ascii_of_nat 10) EmptyString)))))))).
  now rewrite !prefix_cons, prefix_nil.
Qed.

(** What is parsed, for an answer in a fence and for a plain one. *)
Lemma fenced_answer_text (body : string) :
  no_backtick body = true ->
  trim (strip_fences (fence +:+ "json" +:+ newline +:+ body +:+ newline +:+ fence))
  = trim body.
Proof.
  intros Hb. unfold strip_fences. rewrite strip_json_fence.
  rewrite (strip_fences_from_plain body _ Hb).
  change (strip_fences_from 0 (newline +:+ fence)) with newline.
  apply trim_space_end. reflexivity.
Qed.

Lemma app_empty_r (s : string) : s +:+ "" = s.
Proof.
  induction s as [|c a IH]; [reflexivity|].
  change (String c (a +:+ "") = String c a). now rewrite IH.
Qed.

Lemma plain_answer_text (answer : string) :
  no_backtick answer = true -> trim (strip_fences answer) = trim answer.
Proof.
  intros Hb. unfold strip_fences.
  rewrite <- (app_empty_r answer) at 1.
  rewrite (strip_fences_from_plain answer "" Hb).
  change (strip_fences_from 0 "") with "". now rewrite app_empty_r.
Qed.

(** What follows the answer of Mistral. *)
Definition parse_and_check (text : string) : result error jsval :=
  data ← JSON_parse O text;
  _ ← Firecrawl.read data "emotions";
  Ok data.

(** X15.  An answer of Mistral in a JSON code fence is parsed as the text
    between the fences, and a plain answer as it is, both without the white
    space around them; an empty answer is parsed as an empty object. *)
Theorem code_fences_are_removed_before_parsing (text body : string) :
  no_backtick body = true ->
  let system := systemPrompt (toISOString_now O) in
  let user := userPrompt text in
  (chat O system user
   = Ok (JStr (fence +:+ "json" +:+ newline +:+ body +:+ newline +:+ fence)) ->
   (analyzeContent O (JStr text)).1 = parse_and_check (trim body))
  /\ (chat O system user = Ok (JStr body) -> body <> EmptyString ->
      (analyzeContent O (JStr text)).1 = parse_and_check (trim body))
  /\ (chat O system user = Ok (JStr EmptyString) \/ chat O system user = Ok JNull
      \/ chat O system user = Ok JUndefined ->
      (analyzeContent O (JStr text)).1 = parse_and_check "{}").
Proof.
  intros Hb system user. subst system user. unfold analyzeContent. cbn [fst].
  split; [|split].
  - intros ->. cbn [mbind result_bind]. unfold js_or.
    change (truthy (JStr (fence +:+ "json" +:+ newline +:+ body +:+ newline +:+ fence)))
      with true. cbv iota.
    now rewrite (fenced_answer_text body Hb).
  - intros -> Hne. cbn [mbind result_bind]. unfold js_or. simpl.
    destruct (String.eqb_spec body ""); [contradiction|]. simpl.
    now rewrite (plain_answer_text body Hb).
  - intros [-> | [-> | ->]]; reflexivity.
Qed.

Lemma substring_twice (n : nat) (s : string) :
  String.substring 0 n (String.substring 0 n s) = String.substring 0 n s.
Proof.
  revert s. induction n as [|n IH]; intros [|c s]; simpl; try reflexivity.
  now rewrite IH.
Qed.

Lemma substring_more (n : nat) (s more : string) :
  (n <= String.length s)%nat ->
  String.substring 0 n (s +:+ more) = String.substring 0 n s.
Proof.
  revert s. induction n as [|n IH]; intros [|c s] H; simpl in *;
    try reflexivity; try lia.
  - now destruct more.
  - change (String c s +:+ more) with (String c (s +:+ more)). cbn [String.substring].
    rewrite IH by lia. reflexivity.
Qed.

Lemma substring_whole (n : nat) (s : string) :
  (String.length s <= n)%nat -> String.substring 0 n s = s.
Proof.
  revert s. induction n as [|n IH]; intros [|c s] H; simpl in *;
    try reflexivity; try lia.
  rewrite IH by lia. reflexivity.
Qed.

(** X16.  Mistral is asked about the first 50000 characters of the text and no
    more: the call is the one for those characters alone, so what follows
    them changes nothing.  A text of up to 50000 characters goes whole, and
    the note on truncation follows it all the same. *)
Theorem only_the_first_50000_characters_are_sent (text : string) :
  analyzeContent O (JStr text)
  = analyzeContent O (JStr (String.substring 0 prompt_limit text))
  /\ ((prompt_limit <= String.length text)%nat ->
      forall more, analyzeContent O (JStr (text +:+ more)) = analyzeContent O (JStr text))
  /\ ((String.length text <= prompt_limit)%nat ->
      (analyzeContent O (JStr text)).2
      = [(systemPrompt (toISOString_now O),
          "Analyze this text:" +:+ newline +:+ "---" +:+ newline +:+ text
          +:+ "... (truncated if too long)" +:+ newline +:+ "---")]).
Proof.
  split; [|split].
  - unfold analyzeContent, userPrompt. now rewrite substring_twice.
  - intros H more. unfold analyzeContent, userPrompt. now rewrite substring_more.
  - intros H. unfold analyzeContent, userPrompt. cbn [snd].
    now rewrite substring_whole.
Qed.

(** X17.  [analyzeContent] returns only for a text that is a string, after one
    question to Mistral, and what it returns is what [JSON.parse] made of
    the answer (of ['{}'] for an answer that counts as false); it is never
    [null], on which the read of [data.emotions] throws.  On a text that is
    not a string it throws a TypeError before Mistral is asked. *)
Theorem analysis_returns_a_parsed_answer (text : jsval) :
  (forall data, (analyzeContent O text).1 = Ok data ->
     exists s answer jsonResponseText,
       text = JStr s
       /\ (analyzeContent O text).2 = [(systemPrompt (toISOString_now O), userPrompt s)]
       /\ chat O (systemPrompt (toISOString_now O)) (userPrompt s) = Ok answer
       /\ js_or answer (JStr "{}") = JStr jsonResponseText
       /\ JSON_parse O (trim (strip_fences jsonResponseText)) = Ok data
       /\ data <> JNull /\ data <> JUndefined)
  /\ ((forall s, text <> JStr s) ->
      exists message, analyzeContent O text = (Err (TypeError message), [])).
Proof.
  split.
  - intros data H.
    destruct text as [ | | b | n | s | elements | properties]; try discriminate.
    exists s. unfold analyzeContent in *. cbn [fst snd] in *.
    destruct (chat O _ _) as [answer|e]; [|discriminate]. cbn in H.
    exists answer.
    destruct (js_or answer (JStr "{}")) as [ | | b | n | a | elements | properties];
      try discriminate.
    exists a.
    destruct (JSON_parse O (trim (strip_fences a))) as [parsed|e]; [|discriminate].
    cbn in H.
    destruct (Firecrawl.read parsed "emotions") as [emotions|e] eqn:Hread;
      [|discriminate].
    cbn in H. injection H as <-.
    destruct (read_defined _ _ _ Hread) as [Hu Hn]. now repeat split.
  - intros Hno.
    destruct text as [ | | b | n | s | elements | properties];
      try (eexists; reflexivity).
    now destruct (Hno s).
Qed.

End analysis.

End OutsideFacts.

(** * More on the two search functions *)

Module SearchMore.
Import HybridSearch SearchFacts.

Section lists.
Context {A : Type}.

Lemma skipn_incl_all (n : nat) (l : list A) : incl (skipn n l) l.
Proof.
  revert l; induction n as [|n IH]; intros [|x l]; simpl; try easy.
  intros y Hy. right. now apply IH.
Qed.

(** In a list in order, what a LIMIT keeps comes before what it leaves. *)
Lemma ordered_by_cut (dir : direction) (key : A -> Q) (n : nat) (l : list A) (a b : A) :
  ordered_by dir key l -> In a (firstn n l) -> In b (skipn n l) ->
  in_order dir (key a) (key b).
Proof.
  unfold ordered_by. intros H; revert n.
  induction H as [|x l Hl IH Hx]; intros [|n]; simpl; try easy.
  intros [<-|Ha] Hb.
  - rewrite List.Forall_forall in Hx. apply Hx. now apply (skipn_incl_all n l).
  - now apply (IH n).
Qed.

Lemma length_firstn_min (n : nat) (l : list A) :
  List.length (firstn n l) = Nat.min n (List.length l).
Proof. apply length_firstn. Qed.



End lists.

Section queries.
Context `{Ops : Operators} `{Exe : Executor}.

(** What a sort and a LIMIT return of a list: the first rows of the list
    in order, and the rows they leave behind. *)
Lemma top_rows {A : Type} (dir : direction) (key : A -> Q) (n : nat) (l : list A) :
  let kept := firstn n (order_by dir key l) in
  let left := skipn n (order_by dir key l) in
  Permutation l (kept ++ left)
  /\ List.length kept = Nat.min n (List.length l)
  /\ ordered_by dir key kept
  /\ forall a b, In a kept -> In b left -> in_order dir (key a) (key b).
Proof.
  intros kept left. subst kept left. split; [|split; [|split]].
  - rewrite firstn_skipn. apply order_by_Permutation.
  - rewrite length_firstn_min.
    now rewrite <- (Permutation_length (order_by_Permutation _ dir key l)).
  - apply ordered_by_firstn, order_by_ordered.
  - intros a b. apply ordered_by_cut, order_by_ordered.
Qed.






(** X20.  Each of the two CTEs keeps the best of its matches: [vector_results]
    holds [2 * match_count] of the documents above the threshold, or all of
    them when there are fewer, and none it leaves out is more similar to the
    query than one it holds; [keyword_results] does the same for the documents
    that match the query text, by rank. *)
Theorem candidates_are_the_best_of_their_matches docs qe qt mt mc f :
  in_range mc ->
  exists V Vrest K Krest,
    vector_results docs qe mt mc f = Ok V
    /\ keyword_results docs qt mc f = Ok K
    /\ Permutation
         (map (vector_select qe) (List.filter (vector_where mt f qe) docs)) (V ++ Vrest)
    /\ Permutation
         (map (keyword_select qt) (List.filter (keyword_where f qt) docs)) (K ++ Krest)
    /\ List.length V
       = Nat.min (Z.to_nat (2 * mc))
           (List.length (List.filter (vector_where mt f qe) docs))
    /\ List.length K
       = Nat.min (Z.to_nat (2 * mc))
           (List.length (List.filter (keyword_where f qt) docs))
    /\ (forall v r, In v V -> In r Vrest -> (cand_similarity r <= cand_similarity v)%Q)
    /\ (forall k r, In k K -> In r Krest -> (cand_bm25 r <= cand_bm25 k)%Q).
Proof.
  intros H.
  set (n := Z.to_nat (mc * 2)).
  set (distance := fun d : document => cosine_distance (doc_embedding d) qe).
  set (FV := List.filter (vector_where mt f qe) docs).
  set (FK := map (keyword_select qt) (List.filter (keyword_where f qt) docs)).
  destruct (top_rows ASC distance n FV) as (HPV & HlenV & _ & HcutV).
  destruct (top_rows DESC cand_bm25 n FK) as (HPK & HlenK & _ & HcutK).
  exists (map (vector_select qe) (firstn n (order_by ASC distance FV))),
    (map (vector_select qe) (skipn n (order_by ASC distance FV))),
    (firstn n (order_by DESC cand_bm25 FK)), (skipn n (order_by DESC cand_bm25 FK)).
  split; [rewrite (vector_results_Ok _ _ _ _ _ H); now rewrite firstn_map|].
  split; [now rewrite (keyword_results_Ok _ _ _ _ H)|].
  split; [rewrite <- map_app; now apply Permutation_map|].
  split; [exact HPK|].
  replace (2 * mc) with (mc * 2) by lia. fold n.
  split; [now rewrite length_map|].
  split; [rewrite HlenK; subst FK; now rewrite length_map|].
  split.
  - intros v r Hv Hr.
    apply in_map_iff in Hv as (a & <- & Ha). apply in_map_iff in Hr as (b & <- & Hb).
    pose proof (HcutV a b Ha Hb) as Hab. subst distance. simpl in *. lra.
  - intros k r Hk Hr. apply (HcutK k r Hk Hr).
Qed.




(** *** Identifiers *)










End queries.
End SearchMore.

(** * The quick-add form against the handler *)

Module QuickAddFacts.
Import Intake IntakeFacts IntakeMore.

Section quick_add.
Variable ToString : jsval -> string.
Variable S : services.

Lemma startsWith_nonempty (s prefix : string) :
  prefix <> EmptyString -> QuickAdd.startsWith s prefix = true -> s <> EmptyString.
Proof. intros Hp H ->. destruct prefix; [contradiction | discriminate]. Qed.

Lemma link_nonempty (u : string) :
  QuickAdd.startsWith u "http://" || QuickAdd.startsWith u "https://" = true ->
  u <> EmptyString.
Proof.
  intros H. apply orb_true_iff in H as [H|H];
    apply startsWith_nonempty in H; easy.
Qed.

(** The statuses of the handler. *)
Lemma receive_data_status (req : body) (w : world) :
  status (receive_data ToString S req w).1 = 200%nat
  \/ status (receive_data ToString S req w).1 = 400%nat
  \/ status (receive_data ToString S req w).1 = 500%nat.
Proof.
  unfold receive_data.
  destruct (negb (truthy (url req)) && negb (truthy (text req))); [now right; left|].
  destruct (process ToString S req w) as [[res|e] w'] eqn:P; simpl.
  - left. now destruct (process_inv ToString S req w w' res P).
  - now right; right.
Qed.

(** X25.  A quick add with a title and no content passes the check of the
    form and is refused by the server: the payload has neither url nor text,
    the handler answers 400 and calls nothing, and the form stays open with
    its fields and the error ['Server responded with status: 400']. *)
Theorem title_only_quick_add_is_refused (st : QuickAdd.state) (w : world) :
  Analysis.trim (QuickAdd.title st) <> EmptyString ->
  Analysis.trim (QuickAdd.content st) = EmptyString ->
  QuickAdd.onAdd (QuickAdd.fetch_receive_data ToString S) st w
  = ({| QuickAdd.now :=
          {| QuickAdd.title := QuickAdd.title st;
             QuickAdd.content := QuickAdd.content st;
             QuickAdd.loading := false;
             QuickAdd.error := Some "Server responded with status: 400"%string |};
        QuickAdd.closed := false |}, w).
Proof.
  intros Ht Hc. unfold QuickAdd.onAdd, QuickAdd.payload.
  destruct (String.eqb_spec (Analysis.trim (QuickAdd.title st)) "") as [E|_];
    [contradiction|].
  rewrite Hc. reflexivity.
Qed.

(** X26.  A content that starts with [http://] or [https://] is sent as the
    url with an empty text, so the handler has nothing to fall back on: when
    Firecrawl fails for such a link that is not local, the answer is 500
    after the one call to Firecrawl, nothing is analyzed or stored, and the
    form stays open with its fields and the error ['Server responded with
    status: 500']. *)
Theorem quick_add_of_a_link_has_no_fallback (st : QuickAdd.state) (w : world)
    (e : Intake.error) :
  let u := Analysis.trim (QuickAdd.content st) in
  QuickAdd.startsWith u "http://" || QuickAdd.startsWith u "https://" = true ->
  includes u "localhost" = false ->
  includes u "127.0.0.1" = false ->
  scrapeWithFirecrawl S (JStr u) = Err e ->
  QuickAdd.onAdd (QuickAdd.fetch_receive_data ToString S) st w
  = ({| QuickAdd.now :=
          {| QuickAdd.title := QuickAdd.title st;
             QuickAdd.content := QuickAdd.content st;
             QuickAdd.loading := false;
             QuickAdd.error := Some "Server responded with status: 500"%string |};
        QuickAdd.closed := false |},
     {| db := db w; log := log w ++ [Scrape (JStr u)] |}).
Proof.
  intros u Hlink Hl1 Hl2 Hs.
  pose proof (link_nonempty u Hlink) as Hu.
  unfold QuickAdd.onAdd, QuickAdd.payload. fold u. rewrite Hlink.
  destruct (String.eqb_spec u "") as [E|_]; [contradiction|].
  rewrite andb_false_r.
  unfold QuickAdd.fetch_receive_data.
  assert (Hrun : receive_data ToString S
                   {| url := JStr u; text := JStr "";
                      title := JStr (Analysis.trim (QuickAdd.title st)) |} w
                 = ({| status := 500; json := error_reply (message e) |},
                    {| db := db w; log := log w ++ [Scrape (JStr u)] |})).
  { run_handler. unfold isLocal. cbn.
    destruct (String.eqb_spec u "") as [E|_]; [contradiction|]. cbn.
    rewrite Hl1, Hl2. cbn. rewrite Hs. reflexivity. }
  rewrite Hrun. reflexivity.
Qed.

(** X27.  The form closes exactly when the handler answers 200, and then
    with its fields cleared and no error; in every other case the fields are
    kept and an error is shown.  A form whose title and content are both
    blank sends nothing. *)
Theorem quick_add_closes_on_200_only (st : QuickAdd.state) (w : world) :
  let blank :=
    String.eqb (Analysis.trim (QuickAdd.title st)) ""
    && String.eqb (Analysis.trim (QuickAdd.content st)) "" in
  let answer := receive_data ToString S (QuickAdd.payload st) w in
  let result := QuickAdd.onAdd (QuickAdd.fetch_receive_data ToString S) st w in
  (QuickAdd.closed result.1 = true <-> blank = false /\ status answer.1 = 200%nat)
  /\ (QuickAdd.closed result.1 = true ->
      QuickAdd.now result.1
      = {| QuickAdd.title := ""; QuickAdd.content := ""; QuickAdd.loading := false;
           QuickAdd.error := None |})
  /\ (QuickAdd.closed result.1 = false ->
      QuickAdd.title (QuickAdd.now result.1) = QuickAdd.title st
      /\ QuickAdd.content (QuickAdd.now result.1) = QuickAdd.content st
      /\ QuickAdd.error (QuickAdd.now result.1) <> None)
  /\ (blank = true -> result.2 = w)
  /\ (blank = false -> result.2 = answer.2).
Proof.
  intros blank answer result. subst result. unfold QuickAdd.onAdd. fold blank.
  destruct blank.
  - cbn. repeat split; try discriminate; try easy.
  - unfold QuickAdd.fetch_receive_data. fold answer. unfold QuickAdd.ok. cbn.
    destruct (receive_data_status (QuickAdd.payload st) w) as [H | [H | H]];
      fold answer in H; rewrite H; cbn; repeat split; try discriminate; try easy;
      now intros [_ H'].
Qed.

End quick_add.
End QuickAddFacts.

(** * The search bar of the dashboard, a reader of the collection *)

Module Dashboard.
Import Intake.

(** A document of the snapshot as an item: [{ id: doc.id, ...doc.data() }].
    A field [id] of the data comes after [doc.id] in the literal and
    replaces it. *)
Definition item_of (doc : string * object) : object :=
  doc.2 ∪ {[ "id"%string := JStr doc.1 ]}.

(** [snapshot.docs.map(..)] *)
Definition items_of (docs : list (string * object)) : list object := map item_of docs.

(** The buttons of the emotion mode. *)
Definition emotions : list string :=
  ["Positive"; "Informative"; "Analytical"; "Excited"; "Neutral"; "Personal"]%string.

(** [(item.field || <empty string>).toLowerCase()]: a method of strings
    only. *)
Definition lowered (item : object) (field : string) : result error string :=
  match js_or (property item field) (JStr "") with
  | JStr s => Ok (toLowerCase s)
  | _ =>
      Err (TypeError ("(item." +:+ field +:+ " || " +:+ Analysis.quote +:+ Analysis.quote
                      +:+ ").toLowerCase is not a function"))
  end.

(** [items.filter(p)] for a callback that may throw. *)
Fixpoint filter_items (p : object -> result error bool) (items : list object)
  : result error (list object) :=
  match items with
  | [] => Ok []
  | item :: rest =>
      keep ← p item;
      kept ← filter_items p rest;
      Ok (if keep : bool then item :: kept else kept)
  end.

(** [handleEmotion(emotion)]: the ids handed to [onResults], or what the
    filter throws. *)
Definition handleEmotion (items : list object) (emotion : string)
  : result error (list jsval) :=
  let target := toLowerCase emotion in
  matched ←
    filter_items
      (fun item =>
         emotion ← lowered item "emotion";
         Ok (includes emotion target))
      items;
  Ok (map (fun m => property m "id") matched).

(** [k.toLowerCase()] for an element of [keywords]. *)
Definition keyword_lowered (k : jsval) : result error string :=
  match k with
  | JStr s => Ok (toLowerCase s)
  | JUndefined | JNull => _ ← Firecrawl.read k "toLowerCase"; Ok EmptyString
  | _ => Err (TypeError "k.toLowerCase is not a function")
  end.

(** [ks.map(k => k.toLowerCase())] *)
Fixpoint keywords_lowered (ks : list jsval) : result error (list string) :=
  match ks with
  | [] => Ok []
  | k :: rest =>
      first ← keyword_lowered k;
      others ← keywords_lowered rest;
      Ok (first :: others)
  end.

(** [(item.keywords || []).map(k => k.toLowerCase()).join(' ')] *)
Definition keywords_joined (item : object) : result error string :=
  match js_or (property item "keywords") (JArr []) with
  | JArr ks =>
      words ← keywords_lowered ks;
      Ok (String.concat " " words)
  | _ => Err (TypeError "(item.keywords || []).map is not a function")
  end.

(** The callback of the filter of the text search. *)
Definition matches_query (trimmedQuery : string) (item : object) : result error bool :=
  title ← lowered item "title";
  summary ← lowered item "summary";
  keywords ← keywords_joined item;
  Ok (includes title trimmedQuery || includes summary trimmedQuery
      || includes keywords trimmedQuery).

(** The text search, when its timer fires in text mode: what it hands to
    [onResults] ([None] for [null]), or what the filter throws. *)
Definition text_search (items : list object) (query : string)
  : result error (option (list jsval)) :=
  let trimmedQuery := toLowerCase (Analysis.trim query) in
  if String.eqb trimmedQuery "" then Ok None
  else
    matched ← filter_items (matches_query trimmedQuery) items;
    Ok (Some (map (fun i => property i "id") matched)).

End Dashboard.

(** * Properties of the search bar *)

Module DashboardFacts.
Import Intake IntakeFacts IntakeMore Dashboard.

Lemma item_of_other_keys (doc : string * object) (k : string) :
  k <> "id"%string -> item_of doc !! k = doc.2 !! k.
Proof.
  intros Hk. unfold item_of. rewrite lookup_union, lookup_singleton_ne by easy.
  now destruct (doc.2 !! k).
Qed.

Lemma emotions_nonempty (label : string) :
  In label emotions -> toLowerCase label <> EmptyString.
Proof.
  unfold emotions. simpl.
  intros H; repeat (destruct H as [<-|H]; [discriminate|]); destruct H.
Qed.

Lemma includes_empty (target : string) :
  target <> EmptyString -> includes "" target = false.
Proof. destruct target; [contradiction | reflexivity]. Qed.

(** Items without an emotion are in no result of the emotion filter. *)
Lemma handleEmotion_without_emotion (docs : list (string * object)) (label : string) :
  Forall (fun doc => doc.2 !! "emotion" = None) docs ->
  In label emotions ->
  handleEmotion (items_of docs) label = Ok [].
Proof.
  intros Hdocs Hlabel. unfold handleEmotion, items_of.
  pose proof (includes_empty _ (emotions_nonempty label Hlabel)) as Hno.
  induction Hdocs as [|doc docs Hdoc Hdocs IH]; [reflexivity|].
  cbn [map filter_items].
  assert (Hlow : lowered (item_of doc) "emotion" = Ok EmptyString).
  { unfold lowered, property.
    rewrite (item_of_other_keys doc "emotion") by discriminate. now rewrite Hdoc. }
  rewrite Hlow. cbn -[includes]. rewrite Hno.
  destruct (filter_items _ (map item_of docs)) as [kept|e]; [|discriminate].
  cbn in IH |- *. destruct kept; [reflexivity | discriminate].
Qed.

(** *** The query of the text search *)

Lemma is_space_lower (c : ascii) :
  Analysis.is_space (lower_ascii c) = Analysis.is_space c.
Proof. destruct c as [[] [] [] [] [] [] [] []]; reflexivity. Qed.

Lemma lower_ascii_twice (c : ascii) : lower_ascii (lower_ascii c) = lower_ascii c.
Proof. destruct c as [[] [] [] [] [] [] [] []]; reflexivity. Qed.

Lemma toLowerCase_twice (s : string) : toLowerCase (toLowerCase s) = toLowerCase s.
Proof. induction s as [|c s IH]; simpl; [reflexivity|]. now rewrite lower_ascii_twice, IH. Qed.

Lemma toLowerCase_empty (s : string) : toLowerCase s = EmptyString <-> s = EmptyString.
Proof. destruct s; simpl; split; congruence. Qed.

Lemma trimStart_lower (s : string) :
  Analysis.trimStart (toLowerCase s) = toLowerCase (Analysis.trimStart s).
Proof.
  induction s as [|c s IH]; simpl; [reflexivity|].
  rewrite is_space_lower. now destruct (Analysis.is_space c).
Qed.

Lemma trimEnd_lower (s : string) :
  Analysis.trimEnd (toLowerCase s) = toLowerCase (Analysis.trimEnd s).
Proof.
  induction s as [|c s IH]; simpl; [reflexivity|].
  rewrite IH, is_space_lower.
  destruct (Analysis.trimEnd s); simpl; [now destruct (Analysis.is_space c) | reflexivity].
Qed.

Lemma trim_lower (s : string) :
  Analysis.trim (toLowerCase s) = toLowerCase (Analysis.trim s).
Proof. unfold Analysis.trim. now rewrite trimStart_lower, trimEnd_lower. Qed.

Lemma trimEnd_twice (s : string) :
  Analysis.trimEnd (Analysis.trimEnd s) = Analysis.trimEnd s.
Proof.
  induction s as [|c s IH]; [reflexivity|]. cbn [Analysis.trimEnd].
  destruct (Analysis.trimEnd s) as [|d r] eqn:E.
  - destruct (Analysis.is_space c) eqn:Hc; [reflexivity|].
    cbn [Analysis.trimEnd]. now rewrite Hc.
  - cbn [Analysis.trimEnd] in *. now rewrite IH.
Qed.

(** A text that does not start with white space. *)
Definition starts_at_once (s : string) : Prop :=
  match s with
  | EmptyString => True
  | String c _ => Analysis.is_space c = false
  end.

Lemma trimStart_starts_at_once (s : string) : starts_at_once (Analysis.trimStart s).
Proof.
  induction s as [|c s IH]; simpl; [exact I|].
  destruct (Analysis.is_space c) eqn:Hc; [exact IH | exact Hc].
Qed.

Lemma trimEnd_starts_at_once (s : string) :
  starts_at_once s -> starts_at_once (Analysis.trimEnd s).
Proof.
  destruct s as [|c s]; simpl; [easy|]. intros Hc.
  destruct (Analysis.trimEnd s); [now rewrite Hc | exact Hc].
Qed.

Lemma trimStart_at_once (s : string) : starts_at_once s -> Analysis.trimStart s = s.
Proof. destruct s as [|c s]; simpl; [easy|]. now intros ->. Qed.

Lemma trim_twice (s : string) : Analysis.trim (Analysis.trim s) = Analysis.trim s.
Proof.
  unfold Analysis.trim.
  rewrite (trimStart_at_once (Analysis.trimEnd (Analysis.trimStart s)))
    by apply trimEnd_starts_at_once, trimStart_starts_at_once.
  apply trimEnd_twice.
Qed.

Lemma trim_space_start (s : string) (c : ascii) :
  Analysis.is_space c = true -> Analysis.trim (String c s) = Analysis.trim s.
Proof. intros Hc. unfold Analysis.trim. simpl. now rewrite Hc. Qed.

(** X28.  The text search reads its query without regard to case and to white
    space around it: the query in lower case, the trimmed query, and the
    query with a white-space character before or after it all give what the
    query gives.  It hands [null] to [onResults] exactly when the query is
    blank; any other query gives a list of ids or an error. *)
Theorem text_search_ignores_case_and_padding (items : list object) (query : string) :
  text_search items (toLowerCase query) = text_search items query
  /\ text_search items (Analysis.trim query) = text_search items query
  /\ (forall c, Analysis.is_space c = true ->
        text_search items (String c query) = text_search items query
        /\ text_search items (query +:+ String c EmptyString) = text_search items query)
  /\ (text_search items query = Ok None <-> Analysis.trim query = EmptyString).
Proof.
  unfold text_search. split; [|split; [|split]].
  - now rewrite trim_lower, toLowerCase_twice.
  - now rewrite trim_twice.
  - intros c Hc. split.
    + now rewrite (trim_space_start query c Hc).
    + now rewrite (OutsideFacts.trim_space_end query c Hc).
  - destruct (String.eqb_spec (toLowerCase (Analysis.trim query)) "") as [E|E].
    + split; [intros _; now apply toLowerCase_empty | reflexivity].
    + split; [|intros H; destruct E; now apply toLowerCase_empty].
      destruct (filter_items _ items); discriminate.
Qed.

Section handler.
Variable ToString : jsval -> string.
Variable S : services.

(** X29.  The emotion filter of the dashboard does not find what the handler
    stored: the handler sets no [emotion] on a memory, so when the analysis
    has no key of that name (the prompt asks for [emotions]), a saved memory
    has none, and a collection of such memories gives an empty result for
    each of the six emotions. *)
Theorem emotion_filter_misses_stored_memories (req : body) (w : world) (i : string)
    (m : object) :
  (forall content data, analyzeContent S content = Ok data -> data !! "emotion" = None) ->
  json (receive_data ToString S req w).1 = saved_reply i m ->
  m !! "emotion" = None
  /\ forall others label,
       Forall (fun doc => doc.2 !! "emotion" = None) others ->
       In label emotions ->
       handleEmotion (items_of ((i, m) :: others)) label = Ok [].
Proof.
  intros Hanalysis Hsaved.
  assert (Hm : m !! "emotion" = None).
  { assert (Hreply : (exists i, json (receive_data ToString S req w).1 = saved_reply i m)
                       \/ (exists warning, json (receive_data ToString S req w).1
                                           = unsaved_reply m warning))
      by (left; now exists i).
    destruct (reply_memory_is_the_literal ToString S req w m Hreply)
      as (c & data & t & Ha & _ & ->).
    unfold finalMemory_literal.
    rewrite finalMemory_other_keys
      by (unfold set_by_handler; simpl; intuition discriminate).
    now apply (Hanalysis c). }
  split; [exact Hm|].
  intros others label Hothers Hlabel.
  apply handleEmotion_without_emotion; [|exact Hlabel]. now constructor.
Qed.

End handler.
End DashboardFacts.

(** * Examples for the properties above *)

Module MoreExamples.
Import Intake IntakeFacts IntakeExamples.

(** ** The handler *)

(** A service that never got its service account key. *)
Definition unset_world : world := {| db := None; log := [] |}.

Lemma nothing_is_stored_without_db_witness :
  db unset_world = None
  /\ let res := (receive_data to_string answering submission unset_world).1 in
     let w' := (receive_data to_string answering submission unset_world).2 in
     db w' = None
     /\ (forall i m, ~ In (Add i m) (skipn (List.length (log unset_world)) (log w')))
     /\ (forall i m, json res <> saved_reply i m)
     /\ (status res = 200%nat ->
           exists m, json res = unsaved_reply m "Not saved to DB (Config missing)").
Proof.
  split; [reflexivity|].
  apply (IntakeMore.nothing_is_stored_without_db to_string answering submission unset_world).
  reflexivity.
Defined.






(** Collaborators whose Firecrawl is out of credit. *)
Definition payment_required : error := Error "Request failed with status code 402".

Definition unscraping : services :=
  {| scrapeWithFirecrawl := fun _ => Err payment_required;
     analyzeContent := analyzeContent answering;
     toISOString_now := toISOString_now answering;
     auto_id := auto_id answering |}.











Lemma memory_is_the_analysis_with_eight_keys_set_witness :
  let m := memory_of once.1 in
  ((exists i, json (receive_data to_string answering submission empty_world).1
              = saved_reply i m)
   \/ (exists warning, json (receive_data to_string answering submission empty_world).1
                       = unsaved_reply m warning))
  /\ m !! "favorite" = Some (JBool false)
  /\ m !! "full_content" = Some (JStr "")
  /\ m !! "firecrawl_metadata" = Some (JStr "")
  /\ m !! "url" = Some (js_or (url submission) JNull)
  /\ m !! "original_url" = Some (js_or (url submission) JNull)
  /\ m !! "created_at" = Some (JStr (toISOString_now answering))
  /\ (exists t, m !! "type" = Some (JStr t)
                /\ deriveTypeFromUrl (js_or (url submission) JNull) = Ok t
                /\ In t memory_types)
  /\ (exists v, m !! "title" = Some v /\ truthy v = true)
  /\ exists content analysisData,
       analyzeContent answering content = Ok analysisData
       /\ m !! "title"
          = Some (js_or (property analysisData "title")
                    (js_or (title submission) (JStr "Untitled Memory")))
       /\ forall k, ~ In k IntakeMore.set_by_handler -> m !! k = analysisData !! k.
Proof.
  intros m.
  assert (H : (exists i, json (receive_data to_string answering submission empty_world).1
                         = saved_reply i m)
              \/ (exists warning,
                    json (receive_data to_string answering submission empty_world).1
                    = unsaved_reply m warning))
    by (left; exists "memory-0"%string; vm_compute; reflexivity).
  split; [exact H|].
  exact (IntakeMore.memory_is_the_analysis_with_eight_keys_set to_string answering
           submission empty_world m H).
Defined.

(** ** Firecrawl *)

(** A Firecrawl that answers with a page, and one without a key. *)
Definition firecrawl_answer : jsval :=
  JObj [("success", JBool true);
        ("data", JObj [("markdown", JStr "# A page"); ("metadata", JObj [])])]%string.

Definition crawling : Firecrawl.outside :=
  {| Firecrawl.FIRECRAWL_API_KEY := Some "fc-key"%string;
     Firecrawl.axios_post := fun _ => Ok firecrawl_answer |}.

Definition out_of_credit : Firecrawl.outside :=
  {| Firecrawl.FIRECRAWL_API_KEY := Some "fc-key"%string;
     Firecrawl.axios_post := fun _ => Err payment_required |}.


Definition page_data : jsval :=
  JObj [("markdown", JStr "# A page"); ("metadata", JObj [])]%string.

Lemma scrape_result_is_a_successful_answer_witness :
  let sent := (Firecrawl.scrapeWithFirecrawl crawling (JStr page)).2 in
  Firecrawl.scrapeWithFirecrawl crawling (JStr page) = (Ok page_data, sent)
  /\ exists key r response_data success properties markdown,
       Firecrawl.FIRECRAWL_API_KEY crawling = Some key /\ key <> EmptyString
       /\ sent = [r]
       /\ Firecrawl.endpoint r = "https://api.firecrawl.dev/v1/scrape"%string
       /\ Firecrawl.body_url r = JStr page
       /\ Firecrawl.header_Authorization r = ("Bearer " +:+ key)%string
       /\ Firecrawl.axios_post crawling r = Ok response_data
       /\ Firecrawl.read response_data "success" = Ok success /\ truthy success = true
       /\ Firecrawl.read response_data "data" = Ok page_data /\ truthy page_data = true
       /\ page_data = JObj properties
       /\ Firecrawl.read page_data "markdown" = Ok markdown
       /\ markdown <> JUndefined /\ markdown <> JNull
       /\ Intake.markdown (Firecrawl.scraped_of page_data) = markdown.
Proof.
  intros sent. split; [reflexivity|].
  apply (OutsideFacts.scrape_result_is_a_successful_answer crawling (JStr page) page_data
           sent).
  reflexivity.
Defined.

Lemma scrape_errors_witness :
  let sent := (Firecrawl.scrapeWithFirecrawl out_of_credit (JStr page)).2 in
  Firecrawl.scrapeWithFirecrawl out_of_credit (JStr page) = (Err payment_required, sent)
  /\ ((payment_required = Error "Missing FIRECRAWL_API_KEY" /\ sent = []
       /\ (Firecrawl.FIRECRAWL_API_KEY out_of_credit = None
           \/ Firecrawl.FIRECRAWL_API_KEY out_of_credit = Some EmptyString))
      \/ (exists r, sent = [r] /\ Firecrawl.body_url r = JStr page
            /\ (Firecrawl.axios_post out_of_credit r = Err payment_required
                \/ payment_required = Error "Firecrawl returned unsuccessful response"
                \/ exists message, payment_required = TypeError message))).
Proof.
  intros sent. split; [reflexivity|].
  apply (OutsideFacts.scrape_errors out_of_credit (JStr page) payment_required sent).
  reflexivity.
Defined.


(** ** Mistral *)

(** A Mistral that answers with an empty object in a code fence, and a
    [JSON.parse] that reads this one text. *)
Definition fenced : Analysis.environment :=
  {| Analysis.toISOString_now := "2025-01-01T00:00:00.000Z";
     Analysis.chat := fun _ _ =>
       Ok (JStr (Analysis.fence +:+ "json" +:+ newline +:+ "{}" +:+ newline
                 +:+ Analysis.fence));
     Analysis.JSON_parse := fun s =>
       if String.eqb s "{}" then Ok (JObj []) else Err (Error "Unexpected token") |}.

Lemma code_fences_are_removed_before_parsing_witness :
  Analysis.no_backtick "{}" = true
  /\ let system := Analysis.systemPrompt (Analysis.toISOString_now fenced) in
     let user := Analysis.userPrompt "A page" in
     (Analysis.chat fenced system user
      = Ok (JStr (Analysis.fence +:+ "json" +:+ newline +:+ "{}" +:+ newline
                  +:+ Analysis.fence)) ->
      (Analysis.analyzeContent fenced (JStr "A page")).1
      = OutsideFacts.parse_and_check fenced (Analysis.trim "{}"))
     /\ (Analysis.chat fenced system user = Ok (JStr "{}") -> "{}"%string <> EmptyString ->
         (Analysis.analyzeContent fenced (JStr "A page")).1
         = OutsideFacts.parse_and_check fenced (Analysis.trim "{}"))
     /\ (Analysis.chat fenced system user = Ok (JStr EmptyString)
         \/ Analysis.chat fenced system user = Ok JNull
         \/ Analysis.chat fenced system user = Ok JUndefined ->
         (Analysis.analyzeContent fenced (JStr "A page")).1
         = OutsideFacts.parse_and_check fenced "{}").
Proof.
  split; [reflexivity|].
  apply (OutsideFacts.code_fences_are_removed_before_parsing fenced "A page" "{}").
  reflexivity.
Defined.

(** ** The search functions *)

Section search.
Import HybridSearch SearchFacts SearchExamples.
#[local] Existing Instance word_operators.
#[local] Existing Instance merge_executor.



Lemma candidates_are_the_best_of_their_matches_witness :
  in_range 1
  /\ exists V Vrest K Krest,
       vector_results library about_rust (3 # 10) 1 None = Ok V
       /\ keyword_results library "rust" 1 None = Ok K
       /\ Permutation
            (map (vector_select about_rust)
               (List.filter (vector_where (3 # 10) None about_rust) library))
            (V ++ Vrest)
       /\ Permutation
            (map (keyword_select "rust") (List.filter (keyword_where None "rust") library))
            (K ++ Krest)
       /\ List.length V
          = Nat.min (Z.to_nat (2 * 1))
              (List.length (List.filter (vector_where (3 # 10) None about_rust) library))
       /\ List.length K
          = Nat.min (Z.to_nat (2 * 1))
              (List.length (List.filter (keyword_where None "rust") library))
       /\ (forall v r, In v V -> In r Vrest -> (cand_similarity r <= cand_similarity v)%Q)
       /\ (forall k r, In k K -> In r Krest -> (cand_bm25 r <= cand_bm25 k)%Q).
Proof.
  split; [unfold in_range; lia|].
  apply (SearchMore.candidates_are_the_best_of_their_matches library about_rust "rust"
           (3 # 10) 1 None).
  unfold in_range; lia.
Defined.






End search.

(** ** The quick-add form *)

Definition shopping : QuickAdd.state :=
  {| QuickAdd.title := "  Buy milk ";
     QuickAdd.content := "   ";
     QuickAdd.loading := false;
     QuickAdd.error := None |}.

Lemma title_only_quick_add_is_refused_witness :
  Analysis.trim (QuickAdd.title shopping) <> EmptyString
  /\ Analysis.trim (QuickAdd.content shopping) = EmptyString
  /\ QuickAdd.onAdd (QuickAdd.fetch_receive_data to_string answering) shopping empty_world
     = ({| QuickAdd.now :=
             {| QuickAdd.title := QuickAdd.title shopping;
                QuickAdd.content := QuickAdd.content shopping;
                QuickAdd.loading := false;
                QuickAdd.error := Some "Server responded with status: 400"%string |};
           QuickAdd.closed := false |}, empty_world).
Proof.
  split; [vm_compute; discriminate|]. split; [reflexivity|].
  apply (QuickAddFacts.title_only_quick_add_is_refused to_string answering shopping
           empty_world); [vm_compute; discriminate | reflexivity].
Defined.

Definition bookmark : QuickAdd.state :=
  {| QuickAdd.title := "A page";
     QuickAdd.content := " https://blog.example/a-page ";
     QuickAdd.loading := false;
     QuickAdd.error := None |}.

Lemma quick_add_of_a_link_has_no_fallback_witness :
  let u := Analysis.trim (QuickAdd.content bookmark) in
  QuickAdd.startsWith u "http://" || QuickAdd.startsWith u "https://" = true
  /\ includes u "localhost" = false
  /\ includes u "127.0.0.1" = false
  /\ scrapeWithFirecrawl unscraping (JStr u) = Err payment_required
  /\ QuickAdd.onAdd (QuickAdd.fetch_receive_data to_string unscraping) bookmark empty_world
     = ({| QuickAdd.now :=
             {| QuickAdd.title := QuickAdd.title bookmark;
                QuickAdd.content := QuickAdd.content bookmark;
                QuickAdd.loading := false;
                QuickAdd.error := Some "Server responded with status: 500"%string |};
           QuickAdd.closed := false |},
        {| db := db empty_world; log := log empty_world ++ [Scrape (JStr u)] |}).
Proof.
  intros u. split; [reflexivity|]. split; [reflexivity|]. split; [reflexivity|].
  split; [reflexivity|].
  apply (QuickAddFacts.quick_add_of_a_link_has_no_fallback to_string unscraping bookmark
           empty_world payment_required); reflexivity.
Defined.

(** ** The emotion filter *)

(** Collaborators whose analysis has the keys the prompt asks for. *)
Definition prompted : services :=
  {| scrapeWithFirecrawl := scrapeWithFirecrawl answering;
     analyzeContent := fun _ =>
       Ok (<["title" := JStr "A page"]>
             (<["summary" := JStr "About a page"]>
                (<["keywords" := JArr [JStr "page"]]>
                   (<["emotions" := JArr [JStr "Positive"]]>
                      (<["timestamp" := JStr "2025-01-01T00:00:00.000Z"]>
                         (<["source_url" := JNull]> ∅))))));
     toISOString_now := toISOString_now answering;
     auto_id := auto_id answering |}.

Lemma emotion_filter_misses_stored_memories_witness :
  let m := memory_of (receive_data to_string prompted submission empty_world).1 in
  (forall content data, analyzeContent prompted content = Ok data ->
     data !! "emotion" = None)
  /\ json (receive_data to_string prompted submission empty_world).1
     = saved_reply "memory-0" m
  /\ m !! "emotion" = None
  /\ forall others label,
       Forall (fun doc => doc.2 !! "emotion" = None) others ->
       In label Dashboard.emotions ->
       Dashboard.handleEmotion (Dashboard.items_of (("memory-0"%string, m) :: others)) label
       = Ok [].
Proof.
  intros m.
  assert (Hanalysis : forall content data,
            analyzeContent prompted content = Ok data -> data !! "emotion" = None)
    by (intros content data H; injection H as <-; vm_compute; reflexivity).
  assert (Hsaved : json (receive_data to_string prompted submission empty_world).1
                   = saved_reply "memory-0" m)
    by (vm_compute; reflexivity).
  split; [exact Hanalysis|]. split; [exact Hsaved|].
  exact (DashboardFacts.emotion_filter_misses_stored_memories to_string prompted submission
           empty_world "memory-0" m Hanalysis Hsaved).
Defined.

End MoreExamples.
